(** * Shallow embedding of the ECS core of pixelz (src/src/pixelz.cpp)

    The entity-component-system runtime of pixelz: [EntityManager],
    [ComponentArray<T>], [ComponentManager], [SystemManager] and the
    [Coordinator] facade.  Each C++ class becomes a module with a record
    for its fields and one function per method; mutation is explicit state
    passing, and every method returns a [result]. *)

From Stdlib Require Import ZArith.
From stdpp Require Import base gmap list strings sets fin_maps.

(** ** Basic types (pixelz.cpp lines 40-46) *)

(** [using Entity = std::uint32_t]. *)
Abbreviation Entity := nat (only parsing).
Definition MAX_ENTITIES : nat := 5000.

(** [using ComponentType = std::uint8_t]. *)
Abbreviation ComponentType := nat (only parsing).
Definition MAX_COMPONENTS : nat := 32.

(** [std::bitset<MAX_COMPONENTS>], as a 32-bit integer. *)
Abbreviation Signature := Z (only parsing).

(** Component and system types are keyed by [typeid(T).name()]. *)
Abbreviation TypeName := string (only parsing).

(** The error names of the API of the spec (section 6), plus
    [OutOfRange], the [std::out_of_range] exception thrown by
    [std::bitset::set] for a position past the width.  The C++ source
    raises only [OutOfRange]. *)
Inductive ecs_error :=
  | PoolExhausted | InvalidEntity | AlreadyRegistered | TooManyTypes
  | UnregisteredType | DuplicateComponent | MissingComponent
  | UnknownSystem | OutOfRange.

(** Outcome of a method: a value, a reported error, or no behaviour the
    C++ standard defines: undefined behaviour (out-of-bounds [std::array]
    access, [front()] on an empty [std::queue], a call through a null
    [shared_ptr]) or a call whose template instantiation is ill-formed. *)
Inductive result (A : Type) :=
  | Ok (a : A)
  | Error (err : ecs_error)
  | Undefined.
Arguments Ok {A} a.
Arguments Error {A} err.
Arguments Undefined {A}.

Global Instance result_ret : MRet result := fun A a => Ok a.
Global Instance result_bind : MBind result :=
  fun A B f m =>
    match m with
    | Ok a => f a
    | Error e => Error e
    | Undefined => Undefined
    end.

Definition is_ok {A} (r : result A) : bool :=
  match r with Ok _ => true | _ => false end.

Definition ok_value {A} (r : result A) : option A :=
  match r with Ok a => Some a | _ => None end.

(** ** Library containers *)

(** [std::array::operator[]] read: out of bounds is undefined. *)
Definition array_get {A} (a : list A) (i : nat) : result A :=
  match a !! i with Some x => Ok x | None => Undefined end.

(** [std::array::operator[]] write. *)
Definition array_set {A} (a : list A) (i : nat) (x : A) : result (list A) :=
  if decide (i < length a) then Ok (<[i:=x]> a) else Undefined.

(** [std::unordered_map::operator[]] used as an rvalue: a missing key is
    inserted with the value-initialised default [d], which is returned. *)
Definition umap_index {K A} `{Countable K} (d : A) (m : gmap K A) (k : K)
  : A * gmap K A :=
  match m !! k with
  | Some x => (x, m)
  | None => (d, <[k:=d]> m)
  end.

(** [std::unordered_map::insert({k, x})]: does nothing if [k] is present. *)
Definition umap_insert {K A} `{Countable K} (k : K) (x : A) (m : gmap K A)
  : gmap K A :=
  match m !! k with
  | Some _ => m
  | None => <[k:=x]> m
  end.

(** A loop over an [unordered_map] calling a method on every value;
    the values are independent, so the loop is a pointwise map, undefined
    as soon as one call is. *)
Definition map_traverse {K A B} `{Countable K} (f : K -> A -> result B)
    (m : gmap K A) : result (gmap K B) :=
  if bool_decide (map_Forall (fun k a => is_ok (f k a) = true) m)
  then Ok (map_imap (fun k a => ok_value (f k a)) m)
  else Undefined.

(** [std::bitset<32>::set(pos, value)]: throws [std::out_of_range] when
    [pos >= 32]. *)
Definition bitset_set (s : Signature) (pos : nat) (value : bool) : result Signature :=
  if decide (pos < MAX_COMPONENTS) then
    Ok (if value then Z.lor s (Z.shiftl 1 (Z.of_nat pos))
        else Z.land s (Z.lxor (Z.ones 32) (Z.shiftl 1 (Z.of_nat pos))))
  else Error OutOfRange.

(** [(entity_signature & system_signature) == system_signature]. *)
Definition signature_matches (entity_signature system_signature : Signature) : bool :=
  Z.eqb (Z.land entity_signature system_signature) system_signature.

(** ** EntityManager (lines 67-96) *)
Module EntityManager.

Record t := mk {
  available_entities_ : list Entity;   (** [std::queue], front at the head *)
  signatures_ : list Signature;        (** [std::array<Signature, MAX_ENTITIES>] *)
  living_entity_count_ : Z             (** [std::uint32_t] *)
}.

(** The constructor queues [0 .. MAX_ENTITIES - 1]. *)
Definition init : t :=
  mk (seq 0 MAX_ENTITIES) (replicate MAX_ENTITIES 0%Z) 0.

(** [front()] and [pop()] of an empty queue are undefined. *)
Definition create_entity (em : t) : result (Entity * t) :=
  match available_entities_ em with
  | [] => Undefined
  | id :: rest =>
      Ok (id, mk rest (signatures_ em)
                 ((living_entity_count_ em + 1) mod 2 ^ 32))
  end.

Definition destroy_entity (em : t) (entity : Entity) : result t :=
  sigs ← array_set (signatures_ em) entity 0%Z;
  Ok (mk (available_entities_ em ++ [entity]) sigs
         ((living_entity_count_ em - 1) mod 2 ^ 32)).

Definition set_signature (em : t) (entity : Entity) (signature : Signature)
  : result t :=
  sigs ← array_set (signatures_ em) entity signature;
  Ok (mk (available_entities_ em) sigs (living_entity_count_ em)).

Definition get_signature (em : t) (entity : Entity) : result Signature :=
  array_get (signatures_ em) entity.

End EntityManager.

(** ** ComponentArray<T> (lines 108-164)

    Every component type stores values of one type [V] here; the C++
    template has one [T] per instantiation, and nothing of the claims
    depends on [T] beyond copying values. *)
Module ComponentArray.

Record t (V : Type) := mk {
  component_array_ : list V;                  (** [std::array<T, MAX_ENTITIES>] *)
  entity_to_index_map_ : gmap Entity nat;
  index_to_entity_map_ : gmap nat Entity;
  size_ : nat
}.
Arguments mk {V} _ _ _ _.
Arguments component_array_ {V} _.
Arguments entity_to_index_map_ {V} _.
Arguments index_to_entity_map_ {V} _.
Arguments size_ {V} _.

Section ops.
Context {V : Type}.

(** [std::make_shared<ComponentArray<T>>()] value-initialises: the
    maps are empty, [size_] is 0, every slot holds [T{}] ([dflt]). *)
Definition empty (dflt : V) : t V := mk (replicate MAX_ENTITIES dflt) ∅ ∅ 0.

Definition insert_data (ca : t V) (entity : Entity) (component : V) : result (t V) :=
  let new_index := size_ ca in
  let e2i := <[entity:=new_index]> (entity_to_index_map_ ca) in
  let i2e := <[new_index:=entity]> (index_to_entity_map_ ca) in
  arr ← array_set (component_array_ ca) new_index component;
  Ok (mk arr e2i i2e (S (size_ ca))).

(** With [size_ = 0], [size_ - 1] wraps to [SIZE_MAX] and the read of
    [component_array_[indexOfLastElement]] is out of bounds. *)
Definition remove_data (ca : t V) (entity : Entity) : result (t V) :=
  let '(indexOfRemovedEntity, e2i) := umap_index 0 (entity_to_index_map_ ca) entity in
  match size_ ca with
  | 0 => Undefined
  | S indexOfLastElement =>
      last ← array_get (component_array_ ca) indexOfLastElement;
      arr ← array_set (component_array_ ca) indexOfRemovedEntity last;
      let '(entityOfLastElement, i2e) :=
        umap_index 0 (index_to_entity_map_ ca) indexOfLastElement in
      let e2i := <[entityOfLastElement:=indexOfRemovedEntity]> e2i in
      let i2e := <[indexOfRemovedEntity:=entityOfLastElement]> i2e in
      Ok (mk arr (delete entity e2i) (delete indexOfLastElement i2e) indexOfLastElement)
  end.

(** Returns the referenced value and the array (whose
    [entity_to_index_map_] gains [entity -> 0] if it was missing). *)
Definition get_data (ca : t V) (entity : Entity) : result (V * t V) :=
  let '(i, e2i) := umap_index 0 (entity_to_index_map_ ca) entity in
  x ← array_get (component_array_ ca) i;
  Ok (x, mk (component_array_ ca) e2i (index_to_entity_map_ ca) (size_ ca)).

Definition entity_destroyed (ca : t V) (entity : Entity) : result (t V) :=
  match entity_to_index_map_ ca !! entity with
  | Some _ => remove_data ca entity
  | None => Ok ca
  end.

End ops.
End ComponentArray.

(** ** ComponentManager (lines 166-235) *)
Module ComponentManager.

Record t (V : Type) := mk {
  component_types_ : gmap TypeName ComponentType;
  component_arrays_ : gmap TypeName (ComponentArray.t V);
  next_component_type : nat                     (** [std::uint8_t] *)
}.
Arguments mk {V} _ _ _.
Arguments component_types_ {V} _.
Arguments component_arrays_ {V} _.
Arguments next_component_type {V} _.

Section ops.
Context {V : Type}.

Definition init : t V := mk ∅ ∅ 0.

(** [dflt] is the value [T{}] of the slots of the new array. *)
Definition register_component (cm : t V) (type_name : TypeName) (dflt : V) : t V :=
  mk (umap_insert type_name (next_component_type cm) (component_types_ cm))
     (umap_insert type_name (ComponentArray.empty dflt) (component_arrays_ cm))
     ((next_component_type cm + 1) mod 256).

Definition get_component_type (cm : t V) (type_name : TypeName) : ComponentType * t V :=
  let '(ct, types) := umap_index 0 (component_types_ cm) type_name in
  (ct, mk types (component_arrays_ cm) (next_component_type cm)).

(** For an unregistered type, [component_arrays_[type_name]] is a
    null [shared_ptr]: the call through it is undefined. *)
Definition get_component_array (cm : t V) (type_name : TypeName)
  : result (ComponentArray.t V) :=
  match component_arrays_ cm !! type_name with
  | Some ca => Ok ca
  | None => Undefined
  end.

(** The array is shared: the method mutates the array stored in the map. *)
Definition put_component_array (cm : t V) (type_name : TypeName)
    (ca : ComponentArray.t V) : t V :=
  mk (component_types_ cm) (<[type_name:=ca]> (component_arrays_ cm))
     (next_component_type cm).

Definition add_component (cm : t V) (type_name : TypeName) (entity : Entity)
    (component : V) : result (t V) :=
  ca ← get_component_array cm type_name;
  ca' ← ComponentArray.insert_data ca entity component;
  Ok (put_component_array cm type_name ca').

(** Line 199 calls [get_component_array<T>()->RemoveData(entity)], but
    [ComponentArray<T>] declares no member [RemoveData] (the member it
    has is [remove_data], line 120).  The call depends on [T], so the
    error shows when the template is instantiated: a program that calls
    [remove_component<T>] for any [T] is ill-formed and does not compile,
    and the C++ standard gives it no behaviour ([main] never calls it).
    The method has no outcome here but [Undefined]. *)
Definition remove_component (cm : t V) (type_name : TypeName) (entity : Entity)
  : result (t V) :=
  Undefined.

Definition get_component (cm : t V) (type_name : TypeName) (entity : Entity)
  : result (V * t V) :=
  ca ← get_component_array cm type_name;
  '(x, ca') ← ComponentArray.get_data ca entity;
  Ok (x, put_component_array cm type_name ca').

Definition entity_destroyed (cm : t V) (entity : Entity) : result (t V) :=
  arrays ← map_traverse (fun _ ca => ComponentArray.entity_destroyed ca entity)
                        (component_arrays_ cm);
  Ok (mk (component_types_ cm) arrays (next_component_type cm)).

End ops.
End ComponentManager.

(** ** SystemManager (lines 237-296)

    A system is its [entities_] set. *)
Module SystemManager.

Record t := mk {
  signatures_ : gmap TypeName Signature;
  systems_ : gmap TypeName (gset Entity)
}.

Definition init : t := mk ∅ ∅.

Definition register_system (sm : t) (type_name : TypeName) : t :=
  mk (signatures_ sm) (umap_insert type_name ∅ (systems_ sm)).

Definition set_signature (sm : t) (type_name : TypeName) (signature : Signature) : t :=
  mk (umap_insert type_name signature (signatures_ sm)) (systems_ sm).

Definition entity_destroyed (sm : t) (entity : Entity) : t :=
  mk (signatures_ sm) ((fun ents => ents ∖ {[entity]}) <$> systems_ sm).

(** The loop body for the system [type] reads [signatures_[type]],
    which inserts the signature 0 for a system whose signature was never
    set, and inserts or erases [entity] in that system's set only; the
    loop is therefore a pointwise update of both maps. *)
Definition entity_signature_changed (sm : t) (entity : Entity)
    (entity_signature : Signature) : t :=
  mk (signatures_ sm ∪ ((fun _ => 0%Z) <$> systems_ sm))
     (map_imap
        (fun type ents =>
           let system_signature := default 0%Z (signatures_ sm !! type) in
           Some (if signature_matches entity_signature system_signature
                 then {[entity]} ∪ ents
                 else ents ∖ {[entity]}))
        (systems_ sm)).

End SystemManager.

(** ** Coordinator (lines 298-371) *)
Module Coordinator.

Record t (V : Type) := mk {
  component_manager_ : ComponentManager.t V;
  entity_manager_ : EntityManager.t;
  system_manager_ : SystemManager.t
}.
Arguments mk {V} _ _ _.
Arguments component_manager_ {V} _.
Arguments entity_manager_ {V} _.
Arguments system_manager_ {V} _.

Section ops.
Context {V : Type}.

Definition init : t V := mk ComponentManager.init EntityManager.init SystemManager.init.

Definition create_entity (c : t V) : result (Entity * t V) :=
  '(id, em) ← EntityManager.create_entity (entity_manager_ c);
  Ok (id, mk (component_manager_ c) em (system_manager_ c)).

Definition destroy_entity (c : t V) (entity : Entity) : result (t V) :=
  em ← EntityManager.destroy_entity (entity_manager_ c) entity;
  cm ← ComponentManager.entity_destroyed (component_manager_ c) entity;
  let sm := SystemManager.entity_destroyed (system_manager_ c) entity in
  Ok (mk cm em sm).

Definition register_component (c : t V) (type_name : TypeName) (dflt : V) : t V :=
  mk (ComponentManager.register_component (component_manager_ c) type_name dflt)
     (entity_manager_ c) (system_manager_ c).

Definition add_component (c : t V) (type_name : TypeName) (entity : Entity)
    (component : V) : result (t V) :=
  cm ← ComponentManager.add_component (component_manager_ c) type_name entity component;
  signature ← EntityManager.get_signature (entity_manager_ c) entity;
  let '(ct, cm) := ComponentManager.get_component_type cm type_name in
  signature ← bitset_set signature ct true;
  em ← EntityManager.set_signature (entity_manager_ c) entity signature;
  let sm := SystemManager.entity_signature_changed (system_manager_ c) entity signature in
  Ok (mk cm em sm).

Definition remove_component (c : t V) (type_name : TypeName) (entity : Entity)
  : result (t V) :=
  cm ← ComponentManager.remove_component (component_manager_ c) type_name entity;
  signature ← EntityManager.get_signature (entity_manager_ c) entity;
  let '(ct, cm) := ComponentManager.get_component_type cm type_name in
  signature ← bitset_set signature ct false;
  em ← EntityManager.set_signature (entity_manager_ c) entity signature;
  let sm := SystemManager.entity_signature_changed (system_manager_ c) entity signature in
  Ok (mk cm em sm).

Definition get_component (c : t V) (type_name : TypeName) (entity : Entity)
  : result (V * t V) :=
  '(x, cm) ← ComponentManager.get_component (component_manager_ c) type_name entity;
  Ok (x, mk cm (entity_manager_ c) (system_manager_ c)).

Definition get_component_type (c : t V) (type_name : TypeName) : ComponentType * t V :=
  let '(ct, cm) := ComponentManager.get_component_type (component_manager_ c) type_name in
  (ct, mk cm (entity_manager_ c) (system_manager_ c)).

Definition register_system (c : t V) (type_name : TypeName) : t V :=
  mk (component_manager_ c) (entity_manager_ c)
     (SystemManager.register_system (system_manager_ c) type_name).

Definition set_system_signature (c : t V) (type_name : TypeName) (signature : Signature)
  : t V :=
  mk (component_manager_ c) (entity_manager_ c)
     (SystemManager.set_signature (system_manager_ c) type_name signature).

(** The signature of [entity] as [EntityManager] stores it. *)
Definition signature_of (c : t V) (entity : Entity) : Signature :=
  default 0%Z (EntityManager.signatures_ (entity_manager_ c) !! entity).

(** The entity set of the system [type_name]. *)
Definition system_entities (c : t V) (type_name : TypeName) : option (gset Entity) :=
  SystemManager.systems_ (system_manager_ c) !! type_name.

End ops.
End Coordinator.

(** ** Call sequences used by the statements *)

(** [n] successive [EntityManager::create_entity] calls, collecting the ids. *)
Fixpoint create_n (n : nat) (em : EntityManager.t) : result (list Entity * EntityManager.t) :=
  match n with
  | 0 => Ok ([], em)
  | S n =>
      '(id, em) ← EntityManager.create_entity em;
      '(ids, em) ← create_n n em;
      Ok (id :: ids, em)
  end.

(** [n] creations followed by one more. *)
Definition create_after_n (n : nat) (em : EntityManager.t) : result Entity :=
  '(_, em) ← create_n n em;
  '(id, _) ← EntityManager.create_entity em;
  Ok id.

(** A coordinator with one registered component type ["Pixel"] and one
    system ["Render"] requiring it (bit 0), as [main] sets them up. *)
Definition pixel_setup : Coordinator.t nat :=
  let c := Coordinator.init in
  let c := Coordinator.register_component c "Pixel"%string 0 in
  let c := Coordinator.register_system c "Render"%string in
  Coordinator.set_system_signature c "Render"%string 1%Z.

(** The [EntityManager] states reached by a caller that creates entities
    only while fewer than [MAX_ENTITIES] are live and destroys only live
    ids, with the list of the ids it holds as live (newest first). *)
Inductive em_run : EntityManager.t -> list Entity -> Prop :=
  | em_run_init : em_run EntityManager.init []
  | em_run_create em live id em' :
      em_run em live ->
      length live < MAX_ENTITIES ->
      EntityManager.create_entity em = Ok (id, em') ->
      em_run em' (id :: live)
  | em_run_destroy em live e em' :
      em_run em live ->
      e ∈ live ->
      EntityManager.destroy_entity em e = Ok em' ->
      em_run em' (filter (fun x => x <> e) live).

(** The entity manager after creating 0, after creating 0 and 1, and
    after creating 0 and 1 and destroying 0. *)
Definition em_one : EntityManager.t :=
  EntityManager.mk (seq 1 (MAX_ENTITIES - 1)) (replicate MAX_ENTITIES 0%Z) 1.
Definition em_two : EntityManager.t :=
  EntityManager.mk (seq 2 (MAX_ENTITIES - 2)) (replicate MAX_ENTITIES 0%Z) 2.
Definition em_two_one : EntityManager.t :=
  EntityManager.mk (seq 2 (MAX_ENTITIES - 2) ++ [0]) (replicate MAX_ENTITIES 0%Z) 1.

(** A two-slot array in which entity 5 holds the value 1 at slot 0. *)
Definition dup_array : ComponentArray.t nat :=
  ComponentArray.mk [1; 0] {[5 := 0]} {[0 := 5]} 1.

(** Well-formedness of a [ComponentArray] as its methods maintain it:
    the backing array has [MAX_ENTITIES] slots, the two maps are inverse
    to each other, and exactly the slots [0 .. size_ - 1] are occupied. *)
Record array_wf {V : Type} (ca : ComponentArray.t V) : Prop := {
  wf_length : length (ComponentArray.component_array_ ca) = MAX_ENTITIES;
  wf_size : ComponentArray.size_ ca <= MAX_ENTITIES;
  wf_inverse : forall e i,
    ComponentArray.entity_to_index_map_ ca !! e = Some i <->
    ComponentArray.index_to_entity_map_ ca !! i = Some e;
  wf_dense : forall i,
    is_Some (ComponentArray.index_to_entity_map_ ca !! i) <-> i < ComponentArray.size_ ca
}.

(** The ["Pixel"] array after [insert_data(0, 5)] on the empty array. *)
Definition pixel_array_one : ComponentArray.t nat :=
  ComponentArray.mk (<[0 := 5]> (replicate MAX_ENTITIES 0)) (<[0 := 0]> ∅) (<[0 := 0]> ∅) 1.

(** [pixel_setup] after [create_entity()] (id 0) and
    [add_component<Pixel>(0, 5)]: entity 0 has signature 1 and is in the
    set of ["Render"]. *)
Definition pixel_one : Coordinator.t nat :=
  Coordinator.mk
    (ComponentManager.mk (<["Pixel" := 0]> ∅) (<["Pixel" := pixel_array_one]> ∅) 1)
    (EntityManager.mk (seq 1 (MAX_ENTITIES - 1))
       (<[0 := 1%Z]> (replicate MAX_ENTITIES 0%Z)) 1)
    (SystemManager.mk (<["Render" := 1%Z]> ∅) (<["Render" := {[0]}]> ∅)).

(** The entity-level calls of [Coordinator] a caller issues after the
    systems are set up. *)
Inductive entity_op (V : Type) : Type :=
  | OpCreate
  | OpDestroy (e : Entity)
  | OpAdd (type_name : TypeName) (e : Entity) (v : V)
  | OpRemove (type_name : TypeName) (e : Entity)
  | OpGet (type_name : TypeName) (e : Entity).
Arguments OpCreate {V}.
Arguments OpDestroy {V} _.
Arguments OpAdd {V} _ _ _.
Arguments OpRemove {V} _ _.
Arguments OpGet {V} _ _.

(** One call, keeping the coordinator it leaves. *)
Definition step {V : Type} (c : Coordinator.t V) (op : entity_op V)
  : result (Coordinator.t V) :=
  match op with
  | OpCreate => '(_, c) ← Coordinator.create_entity c; Ok c
  | OpDestroy e => Coordinator.destroy_entity c e
  | OpAdd ty e v => Coordinator.add_component c ty e v
  | OpRemove ty e => Coordinator.remove_component c ty e
  | OpGet ty e => '(_, c) ← Coordinator.get_component c ty e; Ok c
  end.

(** A sequence of calls, stopping at the first one that does not return. *)
Fixpoint run {V : Type} (c : Coordinator.t V) (ops : list (entity_op V))
  : result (Coordinator.t V) :=
  match ops with
  | [] => Ok c
  | op :: ops => c ← step c op; run c ops
  end.

(** No entity has a signature bit set and every system's set is empty, as
    after setting up the systems before creating any entity. *)
Definition no_entities_yet {V : Type} (c : Coordinator.t V) : Prop :=
  (forall e, Coordinator.signature_of c e = 0%Z) /\
  map_Forall (fun _ ents => ents = ∅)
    (SystemManager.systems_ (Coordinator.system_manager_ c)).

(** The membership law for every system with a stored signature that is
    not empty. *)
Definition membership_inv {V : Type} (c : Coordinator.t V) : Prop :=
  forall ty ents sig_S,
    Coordinator.system_entities c ty = Some ents ->
    SystemManager.signatures_ (Coordinator.system_manager_ c) !! ty = Some sig_S ->
    sig_S <> 0%Z ->
    forall e, e ∈ ents <-> signature_matches (Coordinator.signature_of c e) sig_S = true.

(** ["Pixel"] registered, and a system ["Logger"] whose signature is set
    to the empty bitset. *)
Definition logger_setup : Coordinator.t nat :=
  let c := Coordinator.init in
  let c := Coordinator.register_component c "Pixel"%string 0 in
  let c := Coordinator.register_system c "Logger"%string in
  Coordinator.set_system_signature c "Logger"%string 0%Z.

(** ** Further call sequences *)

(** [register_component] for each name in turn, all with the same [T{}]. *)
Definition register_components {V : Type} (cm : ComponentManager.t V)
    (type_names : list TypeName) (dflt : V) : ComponentManager.t V :=
  fold_left (fun cm ty => ComponentManager.register_component cm ty dflt) type_names cm.

(** The ["Pixel"] array after [insert_data(1, 9)] on [pixel_array_one]. *)
Definition pixel_array_two : ComponentArray.t nat :=
  ComponentArray.mk (<[1 := 9]> (<[0 := 5]> (replicate MAX_ENTITIES 0)))
    (<[1 := 1]> (<[0 := 0]> ∅)) (<[1 := 1]> (<[0 := 0]> ∅)) 2.

(** ** The program [main] (lines 410-479) *)

(** [main] up to the entity loop (lines 414-435).  [typeid(T).name()]
    is written as the class name; [dG] .. [dP] are the value-initialised
    components [T{}] the new arrays are filled with. *)
Definition main_setup {V : Type} (dG dR dT dP : V) : result (Coordinator.t V) :=
  let c := Coordinator.init in
  let c := Coordinator.register_component c "Gravity" dG in
  let c := Coordinator.register_component c "RigidBody" dR in
  let c := Coordinator.register_component c "Transform" dT in
  let c := Coordinator.register_component c "Pixel" dP in
  let c := Coordinator.register_system c "PhysicsSystem" in
  let c := Coordinator.register_system c "RenderSystem" in
  let '(g, c) := Coordinator.get_component_type c "Gravity" in
  signature ← bitset_set 0%Z g true;
  let '(r, c) := Coordinator.get_component_type c "RigidBody" in
  signature ← bitset_set signature r true;
  let '(t, c) := Coordinator.get_component_type c "Transform" in
  signature ← bitset_set signature t true;
  let c := Coordinator.set_system_signature c "PhysicsSystem" signature in
  let '(t, c) := Coordinator.get_component_type c "Transform" in
  signature ← bitset_set 0%Z t true;
  let '(p, c) := Coordinator.get_component_type c "Pixel" in
  signature ← bitset_set signature p true;
  let c := Coordinator.set_system_signature c "RenderSystem" signature in
  Ok c.

(** One iteration of the loop of [main] (lines 448-459), given the
    iteration's Gravity, RigidBody, Transform and Pixel values. *)
Definition main_iteration {V : Type} (c : Coordinator.t V) (g r t p : V)
  : result (Entity * Coordinator.t V) :=
  '(entity, c) ← Coordinator.create_entity c;
  c ← Coordinator.add_component c "Gravity" entity g;
  c ← Coordinator.add_component c "RigidBody" entity r;
  c ← Coordinator.add_component c "Transform" entity t;
  c ← Coordinator.add_component c "Pixel" entity p;
  Ok (entity, c).

(** The loop over [entities] (lines 447-460): [n] iterations from
    iteration [i]; [vals i] are the four values drawn in iteration [i]. *)
Fixpoint main_loop {V : Type} (vals : nat -> V * V * V * V) (i n : nat)
    (c : Coordinator.t V) : result (list Entity * Coordinator.t V) :=
  match n with
  | 0 => Ok ([], c)
  | S n =>
      let '(g, r, t, p) := vals i in
      '(entity, c) ← main_iteration c g r t p;
      '(es, c) ← main_loop vals (S i) n c;
      Ok (entity :: es, c)
  end.

(** The array of [name] holds, for the entities [0 .. k-1], the value
    [val x] of entity [x] at slot [x], and nothing else. *)
Definition loop_array_inv {V : Type} (c : Coordinator.t V) (name : TypeName)
    (val : nat -> V) (k : nat) : Prop :=
  exists ca,
    ComponentManager.component_arrays_ (Coordinator.component_manager_ c) !! name = Some ca /\
    array_wf ca /\ ComponentArray.size_ ca = k /\
    (forall x, x < k ->
       ComponentArray.entity_to_index_map_ ca !! x = Some x /\
       ComponentArray.component_array_ ca !! x = Some (val x)) /\
    (forall x, k <= x -> ComponentArray.entity_to_index_map_ ca !! x = None).

Definition gravity_of {V : Type} (vals : nat -> V * V * V * V) (x : nat) : V :=
  let '(g, _, _, _) := vals x in g.
Definition rigid_body_of {V : Type} (vals : nat -> V * V * V * V) (x : nat) : V :=
  let '(_, r, _, _) := vals x in r.
Definition transform_of {V : Type} (vals : nat -> V * V * V * V) (x : nat) : V :=
  let '(_, _, t, _) := vals x in t.
Definition pixel_of {V : Type} (vals : nat -> V * V * V * V) (x : nat) : V :=
  let '(_, _, _, p) := vals x in p.

(** The state after [k] iterations of the loop of [main]. *)
Definition main_loop_inv {V : Type} (vals : nat -> V * V * V * V) (k : nat)
    (c : Coordinator.t V) : Prop :=
  let types := ComponentManager.component_types_ (Coordinator.component_manager_ c) in
  let em := Coordinator.entity_manager_ c in
  let sm := Coordinator.system_manager_ c in
  types !! "Gravity"%string = Some 0 /\ types !! "RigidBody"%string = Some 1 /\
  types !! "Transform"%string = Some 2 /\ types !! "Pixel"%string = Some 3 /\
  loop_array_inv c "Gravity" (gravity_of vals) k /\
  loop_array_inv c "RigidBody" (rigid_body_of vals) k /\
  loop_array_inv c "Transform" (transform_of vals) k /\
  loop_array_inv c "Pixel" (pixel_of vals) k /\
  EntityManager.available_entities_ em = seq k (MAX_ENTITIES - k) /\
  length (EntityManager.signatures_ em) = MAX_ENTITIES /\
  (forall x, x < MAX_ENTITIES ->
     EntityManager.signatures_ em !! x = Some (if decide (x < k) then 15%Z else 0%Z)) /\
  SystemManager.signatures_ sm !! "PhysicsSystem"%string = Some 7%Z /\
  SystemManager.signatures_ sm !! "RenderSystem"%string = Some 12%Z /\
  (exists ents, SystemManager.systems_ sm !! "PhysicsSystem"%string = Some ents /\
                forall x, x ∈ ents <-> x < k) /\
  (exists ents, SystemManager.systems_ sm !! "RenderSystem"%string = Some ents /\
                forall x, x ∈ ents <-> x < k).

(** * Properties *)

(** ** SystemManager::set_signature *)

(** C9: once a signature [sig1] is stored for a system, [set_signature]
    with another [sig2] leaves [sig1] stored, and the membership test of
    [entity_signature_changed] keeps using [sig1]. *)
Theorem set_signature_keeps_first (sm : SystemManager.t) (ty : string)
    (sig1 sig2 : Signature) :
  SystemManager.signatures_ sm !! ty = Some sig1 ->
  SystemManager.signatures_ (SystemManager.set_signature sm ty sig2) !! ty = Some sig1 /\
  forall (e : Entity) (es : Signature) (ents : gset Entity),
    SystemManager.systems_ sm !! ty = Some ents ->
    SystemManager.systems_
      (SystemManager.entity_signature_changed (SystemManager.set_signature sm ty sig2) e es)
      !! ty
    = Some (if signature_matches es sig1 then {[e]} ∪ ents else ents ∖ {[e]}).
Proof.
  destruct sm as [sigs systems]; simpl. intros Hsig.
  unfold SystemManager.set_signature, umap_insert; simpl. rewrite Hsig.
  split; [exact Hsig|].
  intros e es ents Hents. unfold SystemManager.entity_signature_changed. simpl.
  rewrite map_lookup_imap, Hents, Hsig. reflexivity.
Qed.

Lemma set_signature_keeps_first_witness :
  SystemManager.signatures_
    (SystemManager.set_signature
       (SystemManager.register_system SystemManager.init "S"%string) "S"%string 3%Z)
    !! "S"%string = Some 3%Z /\
  SystemManager.signatures_
    (SystemManager.set_signature
       (SystemManager.set_signature
          (SystemManager.register_system SystemManager.init "S"%string) "S"%string 3%Z)
       "S"%string 5%Z) !! "S"%string = Some 3%Z.
Proof.
  split; [vm_compute; reflexivity|].
  apply (set_signature_keeps_first _ "S"%string 3%Z 5%Z). vm_compute. reflexivity.
Defined.

(** C10: a registered system whose signature was never set has the
    signature 0 (absent, or inserted as 0 by an earlier notification):
    [entity_signature_changed] then inserts every entity, whatever its
    signature, and the stored signature becomes 0. *)
Theorem unset_signature_matches_all (sm : SystemManager.t) (ty : string)
    (ents : gset Entity) (e : Entity) (es : Signature) :
  SystemManager.systems_ sm !! ty = Some ents ->
  (SystemManager.signatures_ sm !! ty = None \/
   SystemManager.signatures_ sm !! ty = Some 0%Z) ->
  SystemManager.systems_ (SystemManager.entity_signature_changed sm e es) !! ty
    = Some ({[e]} ∪ ents) /\
  SystemManager.signatures_ (SystemManager.entity_signature_changed sm e es) !! ty
    = Some 0%Z.
Proof.
  intros Hents Hsig. unfold SystemManager.entity_signature_changed; simpl.
  rewrite map_lookup_imap, Hents. simpl.
  assert (Hdef : default 0%Z (SystemManager.signatures_ sm !! ty) = 0%Z)
    by (destruct Hsig as [-> | ->]; reflexivity).
  rewrite Hdef. unfold signature_matches. rewrite Z.land_0_r. simpl.
  split; [reflexivity|].
  rewrite lookup_union, lookup_fmap, Hents.
  destruct Hsig as [-> | ->]; reflexivity.
Qed.

Lemma unset_signature_matches_all_witness :
  SystemManager.systems_
    (SystemManager.entity_signature_changed
       (SystemManager.register_system SystemManager.init "S"%string) 7 6%Z)
    !! "S"%string = Some ({[7]} ∪ ∅) /\
  SystemManager.signatures_
    (SystemManager.entity_signature_changed
       (SystemManager.register_system SystemManager.init "S"%string) 7 6%Z)
    !! "S"%string = Some 0%Z.
Proof.
  apply unset_signature_matches_all; [vm_compute; reflexivity|left; vm_compute; reflexivity].
Defined.

(** ** EntityManager: pool exhaustion and double destruction *)

Lemma create_n_prefix (l rest : list Entity) (sigs : list Signature) (cnt : Z) :
  exists cnt', create_n (length l) (EntityManager.mk (l ++ rest) sigs cnt)
               = Ok (l, EntityManager.mk rest sigs cnt').
Proof.
  revert cnt. induction l as [|id l IH]; intros cnt; simpl.
  - exists cnt. reflexivity.
  - destruct (IH ((cnt + 1) mod 2 ^ 32)%Z) as [cnt' Hrun].
    exists cnt'. rewrite Hrun. reflexivity.
Qed.

(** C5 (amended): the [MAX_ENTITIES] first creations return the ids
    [0 .. MAX_ENTITIES - 1] in order and empty the free queue; the next
    [create_entity] calls [front()] on the empty queue, which is undefined
    behaviour: no capacity error is defined. *)
Theorem create_entity_exhausted_undefined :
  exists em,
    create_n MAX_ENTITIES EntityManager.init = Ok (seq 0 MAX_ENTITIES, em) /\
    EntityManager.available_entities_ em = [] /\
    EntityManager.create_entity em = Undefined.
Proof.
  destruct (create_n_prefix (seq 0 MAX_ENTITIES) [] (replicate MAX_ENTITIES 0%Z) 0%Z)
    as [cnt Hrun].
  rewrite app_nil_r, length_seq in Hrun.
  exists (EntityManager.mk [] (replicate MAX_ENTITIES 0%Z) cnt).
  split; [exact Hrun|]. split; reflexivity.
Qed.

(** C5: after [MAX_ENTITIES] creations from the initial pool, the next
    creation does not report [PoolExhausted]: it is undefined. *)
Lemma create_entity_exhausted_counterexample :
  create_after_n MAX_ENTITIES EntityManager.init = Undefined /\
  create_after_n MAX_ENTITIES EntityManager.init <> Error PoolExhausted.
Proof.
  assert (H : create_after_n MAX_ENTITIES EntityManager.init = Undefined)
    by (vm_compute; reflexivity).
  split; [exact H|]. rewrite H. discriminate.
Qed.

(** C6 (amended): [destroy_entity] checks nothing: destroying an
    in-range id twice succeeds both times, clears its signature, and
    queues the id twice in the free pool. *)
Theorem destroy_entity_twice_accepted (em : EntityManager.t) (e : Entity) :
  e < length (EntityManager.signatures_ em) ->
  exists em1 em2,
    EntityManager.destroy_entity em e = Ok em1 /\
    EntityManager.destroy_entity em1 e = Ok em2 /\
    EntityManager.available_entities_ em2 = EntityManager.available_entities_ em ++ [e; e] /\
    EntityManager.signatures_ em2 !! e = Some 0%Z.
Proof.
  intros He. destruct em as [avail sigs cnt]; simpl in *.
  unfold EntityManager.destroy_entity, array_set; simpl.
  rewrite decide_True by exact He. simpl.
  do 2 eexists. split; [reflexivity|].
  unfold EntityManager.destroy_entity, array_set; simpl.
  rewrite decide_True by (rewrite length_insert; exact He). simpl.
  split; [reflexivity|]. simpl.
  split; [rewrite <- app_assoc; reflexivity|].
  apply list_lookup_insert_eq. rewrite length_insert. exact He.
Qed.

Lemma destroy_entity_twice_accepted_witness :
  exists em1 em2,
    EntityManager.destroy_entity EntityManager.init 0 = Ok em1 /\
    EntityManager.destroy_entity em1 0 = Ok em2 /\
    EntityManager.available_entities_ em2
      = EntityManager.available_entities_ EntityManager.init ++ [0; 0] /\
    EntityManager.signatures_ em2 !! 0 = Some 0%Z.
Proof.
  apply destroy_entity_twice_accepted. vm_compute. lia.
Defined.

(** C6: creating entity 0, giving it a component, and destroying it twice
    through the [Coordinator] succeeds, leaving 0 twice in the free pool. *)
Lemma destroy_entity_twice_counterexample :
  (c ← ('(e, c) ← Coordinator.create_entity pixel_setup;
        c ← Coordinator.add_component c "Pixel"%string e 1;
        c ← Coordinator.destroy_entity c e;
        Coordinator.destroy_entity c e);
   Ok (count_occ Nat.eq_dec
         (EntityManager.available_entities_ (Coordinator.entity_manager_ c)) 0))
  = Ok 2.
Proof. vm_compute. reflexivity. Qed.

(** ** ComponentArray::insert_data on an entity that has data *)

(** C7 (amended): a second [insert_data] for an entity that already has
    an entry is not detected: it succeeds (in bounds), moves the entity's
    map entry to a new slot holding the new value, which [get_data] then
    returns, and leaves the old slot and its reverse-map entry in place. *)
Theorem insert_data_duplicate_overwrites {V : Type} (ca : ComponentArray.t V)
    (e : Entity) (i : nat) (v2 : V) :
  ComponentArray.entity_to_index_map_ ca !! e = Some i ->
  i < ComponentArray.size_ ca ->
  ComponentArray.size_ ca < length (ComponentArray.component_array_ ca) ->
  exists ca',
    ComponentArray.insert_data ca e v2 = Ok ca' /\
    ComponentArray.get_data ca' e = Ok (v2, ca') /\
    ComponentArray.entity_to_index_map_ ca' !! e = Some (ComponentArray.size_ ca) /\
    ComponentArray.index_to_entity_map_ ca' !! i = ComponentArray.index_to_entity_map_ ca !! i /\
    ComponentArray.component_array_ ca' !! i = ComponentArray.component_array_ ca !! i /\
    ComponentArray.size_ ca' = S (ComponentArray.size_ ca).
Proof.
  destruct ca as [arr e2i i2e sz]; simpl. intros He Hi Hsz.
  unfold ComponentArray.insert_data, array_set; simpl.
  rewrite decide_True by exact Hsz. simpl.
  eexists. split; [reflexivity|].
  unfold ComponentArray.get_data, umap_index, array_get; simpl.
  rewrite lookup_insert_eq, list_lookup_insert_eq by exact Hsz. simpl.
  split; [reflexivity|].
  split; [reflexivity|].
  split; [rewrite lookup_insert_ne by lia; reflexivity|].
  split; [rewrite list_lookup_insert_ne by lia; reflexivity|].
  reflexivity.
Qed.

Lemma insert_data_duplicate_overwrites_witness :
  exists ca',
    ComponentArray.insert_data dup_array 5 2 = Ok ca' /\
    ComponentArray.get_data ca' 5 = Ok (2, ca') /\
    ComponentArray.entity_to_index_map_ ca' !! 5 = Some (ComponentArray.size_ dup_array) /\
    ComponentArray.index_to_entity_map_ ca' !! 0
      = ComponentArray.index_to_entity_map_ dup_array !! 0 /\
    ComponentArray.component_array_ ca' !! 0 = ComponentArray.component_array_ dup_array !! 0 /\
    ComponentArray.size_ ca' = S (ComponentArray.size_ dup_array).
Proof.
  apply (insert_data_duplicate_overwrites dup_array 5 0 2); vm_compute; [reflexivity | lia | lia].
Defined.

(** C7: adding ["Pixel"] twice to entity 0 (values 1 then 2) succeeds and
    [get_component] then returns 2: the duplicate is not reported. *)
Lemma insert_data_duplicate_counterexample :
  ('(e, c) ← Coordinator.create_entity pixel_setup;
   c ← Coordinator.add_component c "Pixel"%string e 1;
   c ← Coordinator.add_component c "Pixel"%string e 2;
   '(x, _) ← Coordinator.get_component c "Pixel"%string e;
   Ok x) = Ok 2.
Proof. vm_compute. reflexivity. Qed.

(** ** EntityManager: the free queue and the live ids *)

Lemma filter_out_absent (l : list Entity) (e : Entity) :
  e ∉ l -> filter (fun x => x <> e) l = l.
Proof.
  induction l as [|a l IH]; intros Hnot; [reflexivity|].
  rewrite filter_cons_True by set_solver. rewrite IH by set_solver. reflexivity.
Qed.

Lemma perm_filter_out (l : list Entity) (e : Entity) :
  NoDup l -> e ∈ l -> l ≡ₚ e :: filter (fun x => x <> e) l.
Proof.
  induction l as [|a l IH]; intros Hnd Hin; [set_solver|].
  apply NoDup_cons in Hnd as [Ha Hnd].
  rewrite filter_cons. destruct (decide (a <> e)) as [Hne|Heq].
  - assert (Hin' : e ∈ l) by set_solver.
    rewrite (IH Hnd Hin') at 1. constructor.
  - assert (a = e) as -> by (destruct (decide (a = e)); [assumption|contradiction]).
    rewrite filter_out_absent; [reflexivity|exact Ha].
Qed.

Lemma count_occ_seq (n e : nat) :
  count_occ Nat.eq_dec (seq 0 n) e = if decide (e < n) then 1 else 0.
Proof.
  case_decide.
  - apply (proj1 (NoDup_count_occ' Nat.eq_dec _) (seq_NoDup n 0)).
    apply in_seq. lia.
  - apply count_occ_not_In. rewrite in_seq. lia.
Qed.

(** Every id of [0 .. MAX_ENTITIES - 1] is, exactly once, either queued
    or held live. *)
Lemma em_run_perm (em : EntityManager.t) (live : list Entity) :
  em_run em live ->
  EntityManager.available_entities_ em ++ live ≡ₚ seq 0 MAX_ENTITIES.
Proof.
  induction 1 as [|em live id em' Hrun IH Hcap Hcreate
                  |em live e em' Hrun IH Hlive Hdestroy].
  - change (EntityManager.available_entities_ EntityManager.init) with (seq 0 MAX_ENTITIES).
    rewrite app_nil_r. reflexivity.
  - destruct em as [avail sigs cnt]. unfold EntityManager.create_entity in Hcreate.
    cbn [EntityManager.available_entities_] in Hcreate, IH.
    destruct avail as [|a rest]; [discriminate|].
    injection Hcreate as <- <-. cbn [EntityManager.available_entities_].
    rewrite <- IH. symmetry. apply Permutation_middle.
  - destruct em as [avail sigs cnt]. unfold EntityManager.destroy_entity, array_set in Hdestroy.
    cbn [EntityManager.available_entities_ EntityManager.signatures_] in Hdestroy, IH.
    case_decide; [|discriminate]. injection Hdestroy as <-.
    cbn [EntityManager.available_entities_].
    assert (Hnd : NoDup live).
    { assert (Hall : NoDup (avail ++ live)) by (rewrite IH; apply NoDup_seq).
      apply NoDup_app in Hall. tauto. }
    pose proof (perm_filter_out live e Hnd Hlive) as Hp.
    rewrite <- app_assoc, <- IH. apply Permutation_app_head.
    cbn [app]. symmetry. exact Hp.
Qed.

(** C8: along any sequence of creations (while fewer than
    [MAX_ENTITIES] entities are live) and destructions of live entities,
    the live ids are pairwise distinct, every id of the range is either
    live or queued exactly once (so a destroyed id is queued for reuse
    exactly once), and a creation succeeds with an id that is not live. *)
Theorem entity_ids_unique (em : EntityManager.t) (live : list Entity) :
  em_run em live ->
  NoDup live /\
  (forall e, count_occ Nat.eq_dec (EntityManager.available_entities_ em) e
             + count_occ Nat.eq_dec live e
             = if decide (e < MAX_ENTITIES) then 1 else 0) /\
  (length live < MAX_ENTITIES ->
   exists id em', EntityManager.create_entity em = Ok (id, em') /\ id ∉ live).
Proof.
  intros Hrun. pose proof (em_run_perm em live Hrun) as Hperm.
  assert (Hall : NoDup (EntityManager.available_entities_ em ++ live))
    by (rewrite Hperm; apply NoDup_seq).
  apply NoDup_app in Hall as (_ & Hdisj & Hnd).
  split; [exact Hnd|]. split.
  - intros e. rewrite <- count_occ_app, <- count_occ_seq.
    apply Permutation_count_occ. exact Hperm.
  - intros Hcap. apply Permutation_length in Hperm.
    rewrite length_app, length_seq in Hperm.
    destruct em as [avail sigs cnt]. cbn [EntityManager.available_entities_] in *.
    destruct avail as [|id rest]; cbn [length] in Hperm; [lia|].
    exists id. eexists. split; [reflexivity|].
    apply Hdisj. left.
Qed.

Lemma entity_ids_unique_witness :
  NoDup (filter (fun x => x <> 0) [1; 0]) /\
  (forall e, count_occ Nat.eq_dec (EntityManager.available_entities_ em_two_one) e
             + count_occ Nat.eq_dec (filter (fun x => x <> 0) [1; 0]) e
             = if decide (e < MAX_ENTITIES) then 1 else 0) /\
  (length (filter (fun x => x <> 0) [1; 0]) < MAX_ENTITIES ->
   exists id em', EntityManager.create_entity em_two_one = Ok (id, em') /\
                  id ∉ filter (fun x => x <> 0) [1; 0]).
Proof.
  apply entity_ids_unique.
  apply (em_run_destroy em_two [1; 0] 0 em_two_one);
    [| set_solver | reflexivity].
  apply (em_run_create em_one [0] 1 em_two);
    [| apply Nat.ltb_lt; reflexivity | reflexivity].
  apply (em_run_create EntityManager.init [] 0 em_one);
    [apply em_run_init | apply Nat.ltb_lt; reflexivity | reflexivity].
Defined.

(** ** ComponentArray, ComponentManager and Coordinator calls *)

Ltac peel H :=
  repeat match type of H with
  | (match ?m with Ok _ => _ | Error _ => _ | Undefined => _ end) = _ =>
      let E := fresh "E" in destruct m eqn:E; [|discriminate H|discriminate H]
  | (match ?p with pair _ _ => _ end) = _ =>
      let E := fresh "E" in destruct p eqn:E
  end.


Lemma remove_data_ok {V : Type} (ca : ComponentArray.t V) (e : Entity) (iR : nat) :
  array_wf ca ->
  ComponentArray.entity_to_index_map_ ca !! e = Some iR ->
  exists iL eL last,
    ComponentArray.size_ ca = S iL /\
    ComponentArray.component_array_ ca !! iL = Some last /\
    ComponentArray.index_to_entity_map_ ca !! iL = Some eL /\
    ComponentArray.remove_data ca e =
      Ok (ComponentArray.mk
            (<[iR:=last]> (ComponentArray.component_array_ ca))
            (delete e (<[eL:=iR]> (ComponentArray.entity_to_index_map_ ca)))
            (delete iL (<[iR:=eL]> (ComponentArray.index_to_entity_map_ ca)))
            iL).
Proof.
  intros [Hlen Hsz Hinv Hdense] He.
  destruct ca as [arr e2i i2e sz]; simpl in *.
  assert (HiR : iR < sz) by (apply Hdense; exists e; apply Hinv; exact He).
  destruct sz as [|iL]; [lia|].
  destruct (lookup_lt_is_Some_2 arr iL) as [last Hlast]; [lia|].
  destruct (proj2 (Hdense iL)) as [eL HeL]; [lia|].
  exists iL, eL, last. split; [reflexivity|]. split; [exact Hlast|]. split; [exact HeL|].
  unfold ComponentArray.remove_data, umap_index, array_get, array_set, mbind, result_bind.
  simpl. rewrite He, Hlast, decide_True by lia. rewrite HeL. reflexivity.
Qed.

Lemma remove_data_spec {V : Type} (ca ca' : ComponentArray.t V) (e : Entity) (iR : nat) :
  array_wf ca ->
  ComponentArray.entity_to_index_map_ ca !! e = Some iR ->
  ComponentArray.remove_data ca e = Ok ca' ->
  array_wf ca' /\
  ComponentArray.entity_to_index_map_ ca' !! e = None /\
  (forall i, ComponentArray.index_to_entity_map_ ca' !! i <> Some e) /\
  (forall x ix, x <> e ->
     ComponentArray.entity_to_index_map_ ca !! x = Some ix ->
     exists jx, ComponentArray.entity_to_index_map_ ca' !! x = Some jx /\
                ComponentArray.component_array_ ca' !! jx = ComponentArray.component_array_ ca !! ix).
Proof.
  intros Hwf He Hrem.
  destruct (remove_data_ok ca e iR Hwf He) as (iL & eL & last & Hsz & Hlast & HeL & Hok).
  rewrite Hok in Hrem. injection Hrem as <-.
  destruct Hwf as [Hlen Hszle Hinv Hdense].
  destruct ca as [arr e2i i2e sz]; simpl in *. subst sz.
  assert (HiR : iR < S iL) by (apply Hdense; exists e; apply Hinv; exact He).
  assert (HeL' : e2i !! eL = Some iL) by (apply Hinv; exact HeL).
  assert (Hfun : forall x i j, e2i !! x = Some i -> e2i !! x = Some j -> i = j) by congruence.
  assert (Hinj : forall x y i, e2i !! x = Some i -> e2i !! y = Some i -> x = y).
  { intros x y i Hx Hy. apply Hinv in Hx, Hy. congruence. }
  split; [|split; [|split]].
  - split; simpl.
    + rewrite length_insert. exact Hlen.
    + lia.
    + intros x j. rewrite !lookup_delete, !lookup_insert.
      destruct (decide (e = x)) as [<-|Hex].
      * split; [discriminate|].
        destruct (decide (iL = j)) as [<-|HiLj]; [discriminate|].
        destruct (decide (iR = j)) as [<-|HiRj].
        -- intros [= HeLe]. exfalso. apply HiLj. rewrite HeLe in HeL'. exact (Hfun _ _ _ HeL' He).
        -- intros Hj. apply Hinv in Hj. exfalso. apply HiRj. exact (Hfun _ _ _ He Hj).
      * assert (HiLR : eL <> e -> iL <> iR).
        { intros Hne HiLR. apply Hne. rewrite HiLR in HeL'. exact (Hinj _ _ _ HeL' He). }
        destruct (decide (eL = x)) as [<-|HeLx].
        -- specialize (HiLR (fun H => Hex (eq_sym H))).
           destruct (decide (iL = j)) as [<-|HiLj].
           ++ split; [intros [= ->]; contradiction|discriminate].
           ++ destruct (decide (iR = j)) as [<-|HiRj]; [tauto|].
              split; [intros [= ->]; contradiction|].
              intros Hj. apply Hinv in Hj. exfalso. apply HiLj. exact (Hfun _ _ _ HeL' Hj).
        -- destruct (decide (iL = j)) as [<-|HiLj].
           ++ split; [|discriminate]. intros Hx. exfalso. apply HeLx. exact (Hinj _ _ _ HeL' Hx).
           ++ destruct (decide (iR = j)) as [<-|HiRj].
              ** split; [|intros [= ->]; contradiction].
                 intros Hx. exfalso. apply Hex. exact (Hinj _ _ _ He Hx).
              ** apply Hinv.
    + intros j. rewrite !lookup_delete, !lookup_insert.
      destruct (decide (iL = j)) as [<-|HiLj].
      * split; [intros [? Hn]; discriminate|lia].
      * destruct (decide (iR = j)) as [<-|HiRj].
        -- split; [intros _; lia|intros _; eexists; reflexivity].
        -- rewrite Hdense. lia.
  - simpl. apply lookup_delete_eq.
  - intros i. simpl. rewrite lookup_delete, lookup_insert.
    destruct (decide (iL = i)) as [<-|HiLi]; [discriminate|].
    destruct (decide (iR = i)) as [<-|HiRi].
    + intros [= HeLe]. apply HiLi. rewrite HeLe in HeL'. exact (Hfun _ _ _ HeL' He).
    + intros Hi. apply Hinv in Hi. apply HiRi. exact (Hfun _ _ _ He Hi).
  - intros x ix Hx Hix. simpl.
    rewrite lookup_delete_ne by congruence.
    destruct (decide (eL = x)) as [<-|HeLx].
    + exists iR. rewrite lookup_insert_eq. split; [reflexivity|].
      rewrite list_lookup_insert_eq by lia. rewrite (Hfun _ _ _ Hix HeL'). symmetry. exact Hlast.
    + exists ix. rewrite lookup_insert_ne by exact HeLx. split; [exact Hix|].
      assert (ix <> iR) by (intros ->; apply Hx; apply (Hinj _ _ _ Hix He)).
      rewrite list_lookup_insert_ne by congruence. reflexivity.
Qed.

Lemma array_wf_empty {V : Type} (dflt : V) : array_wf (ComponentArray.empty dflt).
Proof.
  unfold ComponentArray.empty.
  split; cbn [ComponentArray.component_array_ ComponentArray.size_
              ComponentArray.entity_to_index_map_ ComponentArray.index_to_entity_map_].
  - apply length_replicate.
  - lia.
  - intros e i. rewrite !lookup_empty. split; discriminate.
  - intros i. rewrite lookup_empty. split; [intros [? Hn]; discriminate|lia].
Qed.

Lemma insert_data_ok {V : Type} (ca ca' : ComponentArray.t V) (e : Entity) (v : V) :
  ComponentArray.insert_data ca e v = Ok ca' ->
  ComponentArray.size_ ca < length (ComponentArray.component_array_ ca) /\
  ca' = ComponentArray.mk
          (<[ComponentArray.size_ ca:=v]> (ComponentArray.component_array_ ca))
          (<[e:=ComponentArray.size_ ca]> (ComponentArray.entity_to_index_map_ ca))
          (<[ComponentArray.size_ ca:=e]> (ComponentArray.index_to_entity_map_ ca))
          (S (ComponentArray.size_ ca)).
Proof.
  unfold ComponentArray.insert_data, array_set, mbind, result_bind.
  case_decide; intros H'; [|discriminate]. injection H' as <-. auto.
Qed.

Lemma array_wf_insert {V : Type} (ca ca' : ComponentArray.t V) (e : Entity) (v : V) :
  array_wf ca ->
  ComponentArray.entity_to_index_map_ ca !! e = None ->
  ComponentArray.insert_data ca e v = Ok ca' ->
  array_wf ca'.
Proof.
  intros [Hlen Hszle Hinv Hdense] Hnone Hins.
  apply insert_data_ok in Hins as [Hsz ->].
  destruct ca as [arr e2i i2e sz]; simpl in *.
  split; simpl.
  - rewrite length_insert. exact Hlen.
  - lia.
  - intros x j. rewrite !lookup_insert.
    destruct (decide (e = x)) as [<-|Hex].
    + destruct (decide (sz = j)) as [<-|Hszj]; [tauto|].
      split; [intros [= ->]; contradiction|].
      intros Hj. apply Hinv in Hj. congruence.
    + destruct (decide (sz = j)) as [<-|Hszj].
      * split; [|intros [= ->]; contradiction].
        intros Hx. apply Hinv in Hx. assert (Hs : is_Some (i2e !! sz)) by (eexists; exact Hx).
        apply Hdense in Hs. lia.
      * apply Hinv.
  - intros j. rewrite lookup_insert.
    destruct (decide (sz = j)) as [<-|Hszj].
    + split; [intros _; lia|intros _; eexists; reflexivity].
    + rewrite Hdense. lia.
Qed.

Lemma get_data_present {V : Type} (ca : ComponentArray.t V) (x : Entity) (ix : nat) :
  array_wf ca ->
  ComponentArray.entity_to_index_map_ ca !! x = Some ix ->
  exists y, ComponentArray.component_array_ ca !! ix = Some y /\
            ComponentArray.get_data ca x = Ok (y, ca).
Proof.
  intros [Hlen Hszle Hinv Hdense] Hx.
  assert (Hix : ix < ComponentArray.size_ ca) by (apply Hdense; eexists; apply Hinv; exact Hx).
  destruct (lookup_lt_is_Some_2 (ComponentArray.component_array_ ca) ix) as [y Hy]; [lia|].
  exists y. split; [exact Hy|].
  unfold ComponentArray.get_data, umap_index, array_get, mbind, result_bind.
  rewrite Hx, Hy. destruct ca; reflexivity.
Qed.

Lemma put_component_array_id {V : Type} (cm : ComponentManager.t V) ty ca :
  ComponentManager.component_arrays_ cm !! ty = Some ca ->
  ComponentManager.put_component_array cm ty ca = cm.
Proof.
  intros H. unfold ComponentManager.put_component_array.
  rewrite insert_id by exact H. destruct cm; reflexivity.
Qed.

(** [get_component] of an entity that holds data, in a well-formed array. *)
Lemma coordinator_get_present {V : Type} (c : Coordinator.t V) ty ca x ix :
  ComponentManager.component_arrays_ (Coordinator.component_manager_ c) !! ty = Some ca ->
  array_wf ca ->
  ComponentArray.entity_to_index_map_ ca !! x = Some ix ->
  exists y, ComponentArray.component_array_ ca !! ix = Some y /\
            Coordinator.get_component c ty x = Ok (y, c).
Proof.
  intros Hca Hwf Hx. destruct (get_data_present ca x ix Hwf Hx) as (y & Hy & Hget).
  exists y. split; [exact Hy|].
  unfold Coordinator.get_component, ComponentManager.get_component,
    ComponentManager.get_component_array, mbind, result_bind.
  rewrite Hca, Hget, put_component_array_id by exact Hca. destruct c; reflexivity.
Qed.

Lemma coordinator_remove_component_undefined {V : Type} (c : Coordinator.t V) ty e :
  Coordinator.remove_component c ty e = Undefined.
Proof. reflexivity. Qed.

Lemma get_component_type_lookup {V : Type} (cm cm' : ComponentManager.t V) ty ct :
  ComponentManager.get_component_type cm ty = (ct, cm') ->
  ComponentManager.component_types_ cm' !! ty = Some ct /\
  ComponentManager.component_arrays_ cm' = ComponentManager.component_arrays_ cm /\
  ComponentManager.next_component_type cm' = ComponentManager.next_component_type cm.
Proof.
  unfold ComponentManager.get_component_type, umap_index.
  destruct (ComponentManager.component_types_ cm !! ty) eqn:Ht; intros H; injection H as <- <-;
    simpl; rewrite ?lookup_insert_eq; auto.
Qed.

Lemma bitset_set_ok s pos b s' :
  bitset_set s pos b = Ok s' ->
  pos < MAX_COMPONENTS /\
  s' = (if b then Z.lor s (Z.shiftl 1 (Z.of_nat pos))
        else Z.land s (Z.lxor (Z.ones 32) (Z.shiftl 1 (Z.of_nat pos)))).
Proof. unfold bitset_set. case_decide; intros H'; [injection H' as <-; auto|discriminate]. Qed.

Lemma em_set_signature_ok em e s em' :
  EntityManager.set_signature em e s = Ok em' ->
  e < length (EntityManager.signatures_ em) /\
  em' = EntityManager.mk (EntityManager.available_entities_ em)
          (<[e:=s]> (EntityManager.signatures_ em)) (EntityManager.living_entity_count_ em).
Proof.
  unfold EntityManager.set_signature, array_set, mbind, result_bind.
  case_decide; intros H'; [injection H' as <-; auto|discriminate].
Qed.

Lemma bitset_clear_testbit s (pos : nat) :
  pos < MAX_COMPONENTS ->
  Z.testbit (Z.land s (Z.lxor (Z.ones 32) (Z.shiftl 1 (Z.of_nat pos)))) (Z.of_nat pos) = false.
Proof.
  unfold MAX_COMPONENTS. intros Hpos.
  rewrite Z.land_spec, Z.lxor_spec, Z.ones_spec_low by lia.
  rewrite Z.shiftl_1_l, Z.pow2_bits_true by lia. apply andb_false_r.
Qed.

(** C3 (code bug): [Coordinator::remove_component<T>] calls
    [ComponentManager::remove_component<T>], whose body calls the
    undeclared member [RemoveData]: no call of it, for any coordinator,
    type and entity, has a behaviour, so it never clears a bit, never
    removes data and never makes [get_component] fail. *)
Theorem remove_component_ill_formed {V : Type} (c : Coordinator.t V) (ty : string) (e : Entity) :
  Coordinator.remove_component c ty e = Undefined /\
  ComponentManager.remove_component (Coordinator.component_manager_ c) ty e = Undefined.
Proof. split; reflexivity. Qed.

Lemma em_destroy_entity_ok em e em' :
  EntityManager.destroy_entity em e = Ok em' ->
  e < length (EntityManager.signatures_ em) /\
  em' = EntityManager.mk (EntityManager.available_entities_ em ++ [e])
          (<[e:=0%Z]> (EntityManager.signatures_ em))
          ((EntityManager.living_entity_count_ em - 1) mod 2 ^ 32).
Proof.
  unfold EntityManager.destroy_entity, array_set, mbind, result_bind.
  case_decide; intros H'; [injection H' as <-; auto|discriminate].
Qed.


Lemma cm_entity_destroyed_ok {V : Type} (cm cm' : ComponentManager.t V) e :
  ComponentManager.entity_destroyed cm e = Ok cm' ->
  (forall ty, ComponentManager.component_arrays_ cm !! ty = None ->
              ComponentManager.component_arrays_ cm' !! ty = None) /\
  (forall ty ca, ComponentManager.component_arrays_ cm !! ty = Some ca ->
     exists ca', ComponentArray.entity_destroyed ca e = Ok ca' /\
                 ComponentManager.component_arrays_ cm' !! ty = Some ca').
Proof.
  unfold ComponentManager.entity_destroyed, map_traverse, mbind, result_bind.
  case_bool_decide as Hall; intros H; [|discriminate].
  injection H as <-. simpl. split.
  - intros ty Hty. rewrite map_lookup_imap, Hty. reflexivity.
  - intros ty ca Hty. rewrite map_lookup_imap, Hty. simpl.
    specialize (Hall ty ca Hty). simpl in Hall.
    destruct (ComponentArray.entity_destroyed ca e) as [ca'| |]; try discriminate.
    exists ca'. split; reflexivity.
Qed.

(** C4: with well-formed arrays, a returning [destroy_entity(e)] stores
    the empty signature for [e], appends [e] to the free queue, removes [e]
    from the set of every system, and leaves every array well formed with
    no entry for [e] (an array without data of [e] is left unchanged);
    no array is added. *)
Theorem destroy_entity_spec {V : Type} (c c' : Coordinator.t V) (e : Entity) :
  map_Forall (fun _ ca => array_wf ca)
    (ComponentManager.component_arrays_ (Coordinator.component_manager_ c)) ->
  Coordinator.destroy_entity c e = Ok c' ->
  EntityManager.signatures_ (Coordinator.entity_manager_ c') !! e = Some 0%Z /\
  EntityManager.available_entities_ (Coordinator.entity_manager_ c')
    = EntityManager.available_entities_ (Coordinator.entity_manager_ c) ++ [e] /\
  (forall ty, Coordinator.system_entities c' ty
              = (fun ents => ents ∖ {[e]}) <$> Coordinator.system_entities c ty) /\
  (forall ty ents, Coordinator.system_entities c' ty = Some ents -> e ∉ ents) /\
  (forall ty ca,
     ComponentManager.component_arrays_ (Coordinator.component_manager_ c) !! ty = Some ca ->
     exists ca',
       ComponentManager.component_arrays_ (Coordinator.component_manager_ c') !! ty = Some ca' /\
       array_wf ca' /\
       ComponentArray.entity_to_index_map_ ca' !! e = None /\
       (forall i, ComponentArray.index_to_entity_map_ ca' !! i <> Some e) /\
       (ComponentArray.entity_to_index_map_ ca !! e = None -> ca' = ca)) /\
  (forall ty,
     ComponentManager.component_arrays_ (Coordinator.component_manager_ c) !! ty = None ->
     ComponentManager.component_arrays_ (Coordinator.component_manager_ c') !! ty = None).
Proof.
  intros Hwf H.
  unfold Coordinator.destroy_entity, mbind, result_bind in H. peel H.
  injection H as <-.
  apply em_destroy_entity_ok in E as (Hlen & ->).
  apply cm_entity_destroyed_ok in E0 as (Hnone & Hsome).
  simpl. split; [|split; [|split; [|split]]].
  - apply list_lookup_insert_eq. exact Hlen.
  - reflexivity.
  - intros ty. unfold Coordinator.system_entities. simpl. apply lookup_fmap.
  - intros ty ents. unfold Coordinator.system_entities. simpl.
    rewrite lookup_fmap. destruct (SystemManager.systems_ _ !! ty); simpl; [|discriminate].
    intros [= <-]. set_solver.
  - split; [|exact Hnone].
    intros ty ca Hty. destruct (Hsome ty ca Hty) as (ca' & Hdes & Hty').
    pose proof (Hwf ty ca Hty) as Hwfca.
    exists ca'. split; [exact Hty'|].
    unfold ComponentArray.entity_destroyed in Hdes.
    destruct (ComponentArray.entity_to_index_map_ ca !! e) as [iR|] eqn:HiR.
    + destruct (remove_data_spec ca ca' e iR Hwfca HiR Hdes) as (Hwf' & Hgone & Hnoe & _).
      split; [exact Hwf'|]. split; [exact Hgone|]. split; [exact Hnoe|].
      discriminate.
    + injection Hdes as <-. split; [exact Hwfca|]. split; [exact HiR|].
      split; [|reflexivity].
      intros i Hi. apply (wf_inverse _ Hwfca) in Hi. congruence.
Qed.

Lemma cm_add_component_ok {V : Type} (cm cm' : ComponentManager.t V) ty e (v : V) :
  ComponentManager.add_component cm ty e v = Ok cm' ->
  exists ca ca',
    ComponentManager.component_arrays_ cm !! ty = Some ca /\
    ComponentArray.insert_data ca e v = Ok ca' /\
    cm' = ComponentManager.put_component_array cm ty ca'.
Proof.
  unfold ComponentManager.add_component, ComponentManager.get_component_array, mbind, result_bind.
  intros H. peel H. destruct (ComponentManager.component_arrays_ cm !! ty) as [ca|] eqn:Ha; [|discriminate].
  injection E as <-. injection H as <-. eauto.
Qed.

(** C2: after a returning [add_component<T>(e, v)], [get_component<T>(e)]
    returns [v] (and leaves the coordinator unchanged), and bit [T] of
    [e]'s signature is set. *)
Theorem add_component_then_get {V : Type} (c c' : Coordinator.t V) (ty : string)
    (e : Entity) (v : V) :
  Coordinator.add_component c ty e v = Ok c' ->
  Coordinator.get_component c' ty e = Ok (v, c') /\
  exists ct,
    ComponentManager.component_types_ (Coordinator.component_manager_ c') !! ty = Some ct /\
    Z.testbit (Coordinator.signature_of c' e) (Z.of_nat ct) = true.
Proof.
  intros H. unfold Coordinator.add_component, mbind, result_bind in H. peel H.
  injection H as <-.
  apply cm_add_component_ok in E as (ca & ca' & Hca & Hins & ->).
  apply get_component_type_lookup in E1 as (Hct & Harr & Hnext).
  apply bitset_set_ok in E2 as (Hpos & ->).
  apply em_set_signature_ok in E3 as (Hlen & ->).
  apply insert_data_ok in Hins as (Hsz & ->).
  split.
  - unfold Coordinator.get_component, ComponentManager.get_component,
      ComponentManager.get_component_array, mbind, result_bind. simpl.
    rewrite Harr. simpl. rewrite lookup_insert_eq.
    unfold ComponentArray.get_data, umap_index, array_get. simpl.
    rewrite lookup_insert_eq, list_lookup_insert_eq by exact Hsz.
    f_equal. f_equal.
    destruct t as [types arrays next]. simpl in *. subst arrays.
    unfold ComponentManager.put_component_array. simpl. rewrite insert_insert_eq. reflexivity.
  - exists n. split; [exact Hct|].
    unfold Coordinator.signature_of. simpl.
    rewrite list_lookup_insert_eq by exact Hlen. simpl.
    rewrite Z.lor_spec, Z.shiftl_1_l, Z.pow2_bits_true by lia.
    apply orb_true_r.
Qed.

(** ** The membership law of the systems *)

Lemma signature_matches_zero s : s <> 0%Z -> signature_matches 0 s = false.
Proof. intros Hs. unfold signature_matches. rewrite Z.land_0_l. apply Z.eqb_neq. congruence. Qed.

Lemma membership_inv_start {V : Type} (c : Coordinator.t V) :
  no_entities_yet c -> membership_inv c.
Proof.
  intros [Hsig Hsys] ty ents s Hents _ Hne e.
  unfold Coordinator.system_entities in Hents.
  rewrite (Hsys _ _ Hents), Hsig, signature_matches_zero by exact Hne.
  rewrite elem_of_empty. split; [contradiction|discriminate].
Qed.

Lemma membership_inv_same {V : Type} (c c' : Coordinator.t V) :
  membership_inv c ->
  Coordinator.system_manager_ c' = Coordinator.system_manager_ c ->
  (forall x, Coordinator.signature_of c' x = Coordinator.signature_of c x) ->
  membership_inv c'.
Proof.
  unfold membership_inv, Coordinator.system_entities. intros H Hsm Hsig ty ents s.
  rewrite Hsm. intros Hents Hs Hne x. rewrite Hsig. exact (H ty ents s Hents Hs Hne x).
Qed.

Lemma membership_inv_destroyed {V : Type} (c c' : Coordinator.t V) e :
  membership_inv c ->
  Coordinator.system_manager_ c' = SystemManager.entity_destroyed (Coordinator.system_manager_ c) e ->
  Coordinator.signature_of c' e = 0%Z ->
  (forall x, x <> e -> Coordinator.signature_of c' x = Coordinator.signature_of c x) ->
  membership_inv c'.
Proof.
  unfold membership_inv, Coordinator.system_entities. intros H Hsm He Hx ty ents s.
  rewrite Hsm. unfold SystemManager.entity_destroyed. cbn [SystemManager.systems_ SystemManager.signatures_].
  rewrite lookup_fmap.
  destruct (SystemManager.systems_ (Coordinator.system_manager_ c) !! ty) as [ents0|] eqn:E;
    [|discriminate].
  intros [= <-] Hs Hne x.
  destruct (decide (x = e)) as [->|Hxe].
  - rewrite He, signature_matches_zero by exact Hne.
    rewrite elem_of_difference, elem_of_singleton. split; [tauto|discriminate].
  - rewrite Hx by exact Hxe. rewrite <- (H ty ents0 s E Hs Hne x).
    rewrite elem_of_difference, elem_of_singleton. tauto.
Qed.

Lemma membership_inv_signature_changed {V : Type} (c c' : Coordinator.t V) e es :
  membership_inv c ->
  Coordinator.system_manager_ c'
    = SystemManager.entity_signature_changed (Coordinator.system_manager_ c) e es ->
  Coordinator.signature_of c' e = es ->
  (forall x, x <> e -> Coordinator.signature_of c' x = Coordinator.signature_of c x) ->
  membership_inv c'.
Proof.
  unfold membership_inv, Coordinator.system_entities. intros H Hsm He Hx ty ents s.
  rewrite Hsm. unfold SystemManager.entity_signature_changed.
  cbn [SystemManager.systems_ SystemManager.signatures_].
  rewrite map_lookup_imap.
  destruct (SystemManager.systems_ (Coordinator.system_manager_ c) !! ty) as [ents0|] eqn:E;
    [|discriminate].
  cbn [mbind option_bind]. intros [= <-] Hs Hne.
  apply lookup_union_Some_raw in Hs as [Hs|[_ Hs]].
  2:{ rewrite lookup_fmap, E in Hs. injection Hs as <-. contradiction. }
  rewrite Hs. cbn [default from_option id]. intros x.
  destruct (decide (x = e)) as [->|Hxe].
  - rewrite He. destruct (signature_matches es s); cbv beta iota.
    + rewrite elem_of_union, elem_of_singleton. tauto.
    + rewrite elem_of_difference, elem_of_singleton. split; [tauto|discriminate].
  - rewrite Hx by exact Hxe. rewrite <- (H ty ents0 s E Hs Hne x).
    destruct (signature_matches es s); cbv beta iota;
      [rewrite elem_of_union, elem_of_singleton|rewrite elem_of_difference, elem_of_singleton];
      tauto.
Qed.

Lemma signature_of_set {V : Type} (c : Coordinator.t V) (cm : ComponentManager.t V)
    (sm : SystemManager.t) avail cnt e s x :
  e < length (EntityManager.signatures_ (Coordinator.entity_manager_ c)) ->
  Coordinator.signature_of
    (Coordinator.mk cm (EntityManager.mk avail
       (<[e:=s]> (EntityManager.signatures_ (Coordinator.entity_manager_ c))) cnt) sm) x
  = if decide (x = e) then s else Coordinator.signature_of c x.
Proof.
  intros Hlen. unfold Coordinator.signature_of. cbn [Coordinator.entity_manager_ EntityManager.signatures_].
  destruct (decide (x = e)) as [->|Hxe].
  - rewrite list_lookup_insert_eq by exact Hlen. reflexivity.
  - rewrite list_lookup_insert_ne by congruence. reflexivity.
Qed.

Lemma membership_inv_set_call {V : Type} (c : Coordinator.t V) (cm : ComponentManager.t V)
    avail cnt e s :
  membership_inv c ->
  e < length (EntityManager.signatures_ (Coordinator.entity_manager_ c)) ->
  membership_inv
    (Coordinator.mk cm (EntityManager.mk avail
       (<[e:=s]> (EntityManager.signatures_ (Coordinator.entity_manager_ c))) cnt)
       (SystemManager.entity_signature_changed (Coordinator.system_manager_ c) e s)).
Proof.
  intros H Hlen. apply (membership_inv_signature_changed c _ e s H); [reflexivity| |].
  - rewrite signature_of_set by exact Hlen. apply decide_True. reflexivity.
  - intros x Hx. rewrite signature_of_set by exact Hlen. apply decide_False. exact Hx.
Qed.

Lemma membership_inv_step {V : Type} (c c' : Coordinator.t V) (op : entity_op V) :
  membership_inv c -> step c op = Ok c' -> membership_inv c'.
Proof.
  intros Hinv H. destruct op as [|e|ty e v|ty e|ty e]; unfold step in H.
  - unfold Coordinator.create_entity, EntityManager.create_entity, mbind, result_bind in H.
    destruct (EntityManager.available_entities_ (Coordinator.entity_manager_ c)); [discriminate|].
    cbv beta iota in H. injection H as <-. apply (membership_inv_same c _ Hinv); [reflexivity|intros x; reflexivity].
  - unfold Coordinator.destroy_entity, mbind, result_bind in H. peel H.
    injection H as <-. apply em_destroy_entity_ok in E as (Hlen & ->).
    apply (membership_inv_destroyed c _ e Hinv); [reflexivity| |].
    + rewrite signature_of_set by exact Hlen. apply decide_True. reflexivity.
    + intros x Hx. rewrite signature_of_set by exact Hlen. apply decide_False. exact Hx.
  - unfold Coordinator.add_component, mbind, result_bind in H. peel H.
    injection H as <-. apply em_set_signature_ok in E3 as (Hlen & ->).
    apply membership_inv_set_call; assumption.
  - rewrite coordinator_remove_component_undefined in H. discriminate H.
  - unfold mbind, result_bind in H.
    destruct (Coordinator.get_component c ty e) as [[x c1]| |] eqn:E; try discriminate.
    injection H as <-.
    unfold Coordinator.get_component, mbind, result_bind in E. peel E.
    injection E as <- <-. apply (membership_inv_same c _ Hinv); [reflexivity|intros y; reflexivity].
Qed.

Lemma membership_inv_run {V : Type} (c c' : Coordinator.t V) (ops : list (entity_op V)) :
  membership_inv c -> run c ops = Ok c' -> membership_inv c'.
Proof.
  revert c. induction ops as [|op ops IH]; intros c Hinv H; simpl in H.
  - injection H as <-. exact Hinv.
  - unfold mbind, result_bind in H. destruct (step c op) as [c1| |] eqn:E; try discriminate.
    exact (IH c1 (membership_inv_step c c1 op Hinv E) H).
Qed.

(** C1 (amended): for a coordinator whose systems were set up before any
    entity got a signature bit, after any sequence of [create_entity],
    [destroy_entity], [add_component], [remove_component] and
    [get_component] calls that all return, every system [S] whose stored
    signature [sig_S] is not empty has as its set exactly the entities [e]
    with [(signature(e) & sig_S) == sig_S]. *)
Theorem system_membership_invariant {V : Type} (c0 c : Coordinator.t V)
    (ops : list (entity_op V)) :
  no_entities_yet c0 ->
  run c0 ops = Ok c ->
  forall ty ents sig_S,
    Coordinator.system_entities c ty = Some ents ->
    SystemManager.signatures_ (Coordinator.system_manager_ c) !! ty = Some sig_S ->
    sig_S <> 0%Z ->
    forall e, e ∈ ents <-> signature_matches (Coordinator.signature_of c e) sig_S = true.
Proof.
  intros H0 Hrun. exact (membership_inv_run c0 c ops (membership_inv_start c0 H0) Hrun).
Qed.

Lemma em_init_signature_of {V : Type} (c : Coordinator.t V) e :
  Coordinator.entity_manager_ c = EntityManager.init -> Coordinator.signature_of c e = 0%Z.
Proof.
  intros H. unfold Coordinator.signature_of. rewrite H. unfold EntityManager.init.
  cbn [EntityManager.signatures_].
  destruct (replicate MAX_ENTITIES 0%Z !! e) as [s|] eqn:E; [|reflexivity].
  apply lookup_replicate in E as [-> _]. reflexivity.
Qed.

Lemma pixel_setup_no_entities : no_entities_yet pixel_setup.
Proof.
  split.
  - intros e. apply em_init_signature_of. reflexivity.
  - change (SystemManager.systems_ (Coordinator.system_manager_ pixel_setup))
      with (<["Render"%string := (∅ : gset Entity)]> (∅ : gmap TypeName (gset Entity))).
    apply map_Forall_insert_2; [reflexivity|apply map_Forall_empty].
Qed.

Lemma system_membership_invariant_witness :
  exists c,
    run pixel_setup [OpCreate; OpAdd "Pixel"%string 0 5; OpCreate] = Ok c /\
    forall ents,
      Coordinator.system_entities c "Render"%string = Some ents ->
      SystemManager.signatures_ (Coordinator.system_manager_ c) !! "Render"%string = Some 1%Z ->
      (0 ∈ ents <-> signature_matches (Coordinator.signature_of c 0) 1 = true).
Proof.
  assert (Hok : is_ok (run pixel_setup [OpCreate; OpAdd "Pixel"%string 0 5; OpCreate]) = true)
    by (vm_compute; reflexivity).
  destruct (run pixel_setup [OpCreate; OpAdd "Pixel"%string 0 5; OpCreate]) as [c| |] eqn:Hrun;
    [|discriminate Hok|discriminate Hok].
  exists c. split; [reflexivity|]. intros ents Hents Hs.
  exact (system_membership_invariant pixel_setup c _ pixel_setup_no_entities Hrun
           "Render"%string ents 1%Z Hents Hs ltac:(discriminate) 0).
Defined.

(** The law fails for a system whose signature is the empty bitset:
    [destroy_entity] takes the entity out of every set, while
    [(0 & 0) == 0] still holds for it. *)
Lemma system_membership_counterexample :
  (c ← run logger_setup [OpCreate; OpAdd "Pixel"%string 0 1; OpDestroy 0];
   Ok (bool_decide (0 ∈ default ∅ (Coordinator.system_entities c "Logger"%string)),
       SystemManager.signatures_ (Coordinator.system_manager_ c) !! "Logger"%string,
       signature_matches (Coordinator.signature_of c 0) 0%Z))
  = Ok (false, Some 0%Z, true).
Proof. vm_compute. reflexivity. Qed.

(** ** Witnesses for C2, C3 and C4 *)

(** [pixel_one] is the state [main]'s first two calls reach. *)
Lemma pixel_one_reached :
  run pixel_setup [OpCreate; OpAdd "Pixel"%string 0 5] = Ok pixel_one.
Proof. reflexivity. Qed.

Lemma pixel_array_one_wf : array_wf pixel_array_one.
Proof.
  apply (array_wf_insert (ComponentArray.empty 0) pixel_array_one 0 5).
  - apply array_wf_empty.
  - reflexivity.
  - reflexivity.
Qed.

Lemma add_component_then_get_witness :
  exists c',
    Coordinator.add_component pixel_setup "Pixel"%string 0 5 = Ok c' /\
    Coordinator.get_component c' "Pixel"%string 0 = Ok (5, c') /\
    exists ct,
      ComponentManager.component_types_ (Coordinator.component_manager_ c') !! "Pixel"%string
        = Some ct /\
      Z.testbit (Coordinator.signature_of c' 0) (Z.of_nat ct) = true.
Proof.
  assert (Hok : is_ok (Coordinator.add_component pixel_setup "Pixel"%string 0 5) = true)
    by (vm_compute; reflexivity).
  destruct (Coordinator.add_component pixel_setup "Pixel"%string 0 5) as [c'| |] eqn:Hadd;
    [|discriminate Hok|discriminate Hok].
  exists c'. split; [reflexivity|].
  exact (add_component_then_get pixel_setup c' "Pixel"%string 0 5 Hadd).
Defined.

Lemma destroy_entity_spec_witness :
  exists c',
    Coordinator.destroy_entity pixel_one 0 = Ok c' /\
    EntityManager.signatures_ (Coordinator.entity_manager_ c') !! 0 = Some 0%Z /\
    (forall ents, Coordinator.system_entities c' "Render"%string = Some ents -> 0 ∉ ents).
Proof.
  assert (Hok : is_ok (Coordinator.destroy_entity pixel_one 0) = true)
    by (vm_compute; reflexivity).
  destruct (Coordinator.destroy_entity pixel_one 0) as [c'| |] eqn:Hdes;
    [|discriminate Hok|discriminate Hok].
  exists c'. split; [reflexivity|].
  assert (Hwf : map_Forall (fun _ ca => array_wf ca)
                  (ComponentManager.component_arrays_ (Coordinator.component_manager_ pixel_one))).
  { apply map_Forall_insert_2; [exact pixel_array_one_wf|apply map_Forall_empty]. }
  destruct (destroy_entity_spec pixel_one c' 0 Hwf Hdes) as (H1 & _ & _ & H4 & _).
  split; [exact H1|]. intros ents. apply H4.
Defined.

(** ** Further properties of EntityManager *)

Lemma em_run_nodup em live : em_run em live -> NoDup live.
Proof.
  intros Hrun. pose proof (em_run_perm em live Hrun) as Hperm.
  assert (Hall : NoDup (EntityManager.available_entities_ em ++ live))
    by (rewrite Hperm; apply NoDup_seq).
  apply NoDup_app in Hall as (_ & _ & Hnd). exact Hnd.
Qed.

(** X1: along any run of the entity manager that creates only below capacity and destroys only live ids, [living_entity_count_] equals the number of live entities and the signature array keeps its [MAX_ENTITIES] slots. *)
Theorem living_entity_count_live em live :
  em_run em live ->
  EntityManager.living_entity_count_ em = Z.of_nat (length live) /\
  length (EntityManager.signatures_ em) = MAX_ENTITIES.
Proof.
  induction 1 as [|em live id em' Hrun IH Hcap Hc|em live e em' Hrun IH Hin Hd].
  - unfold EntityManager.init. cbn [EntityManager.living_entity_count_ EntityManager.signatures_].
    split; [reflexivity|apply length_replicate].
  - destruct IH as [Hcnt Hlen].
    unfold EntityManager.create_entity in Hc.
    destruct (EntityManager.available_entities_ em) as [|x rest]; [discriminate|].
    injection Hc as <- <-. cbn [EntityManager.living_entity_count_ EntityManager.signatures_ length].
    split; [|exact Hlen].
    rewrite Hcnt. unfold MAX_ENTITIES in Hcap. rewrite Z.mod_small by lia. lia.
  - destruct IH as [Hcnt Hlen].
    apply em_destroy_entity_ok in Hd as [He ->].
    cbn [EntityManager.living_entity_count_ EntityManager.signatures_].
    split; [|rewrite length_insert; exact Hlen].
    pose proof (perm_filter_out live e (em_run_nodup em live Hrun) Hin) as Hp.
    apply Permutation_length in Hp. cbn [length] in Hp.
    assert (Hcap : length live <= MAX_ENTITIES).
    { pose proof (em_run_perm em live Hrun) as Hperm. apply Permutation_length in Hperm.
      rewrite length_app, length_seq in Hperm. lia. }
    rewrite Hcnt, Hp. unfold MAX_ENTITIES in Hcap. rewrite Z.mod_small by lia. lia.
Qed.

Lemma living_entity_count_live_witness :
  em_run em_one [0] /\
  EntityManager.living_entity_count_ em_one = Z.of_nat (length [0]) /\
  length (EntityManager.signatures_ em_one) = MAX_ENTITIES.
Proof.
  assert (Hrun : em_run em_one [0]).
  { apply (em_run_create EntityManager.init [] 0 em_one em_run_init).
    - apply Nat.ltb_lt. reflexivity.
    - reflexivity. }
  split; [exact Hrun|]. exact (living_entity_count_live em_one [0] Hrun).
Defined.

(** X2: [destroy_entity(e)] appends [e] to the back of the free queue: the ids queued before it are handed out first, in order, and the next [create_entity] returns [e]. *)
Theorem destroy_entity_reuse_fifo em e em' :
  EntityManager.destroy_entity em e = Ok em' ->
  exists em'' em''',
    create_n (length (EntityManager.available_entities_ em)) em'
      = Ok (EntityManager.available_entities_ em, em'') /\
    EntityManager.create_entity em'' = Ok (e, em''').
Proof.
  intros Hd. apply em_destroy_entity_ok in Hd as [_ ->].
  destruct (create_n_prefix (EntityManager.available_entities_ em) [e]
              (<[e:=0%Z]> (EntityManager.signatures_ em))
              ((EntityManager.living_entity_count_ em - 1) mod 2 ^ 32)%Z) as [cnt Hn].
  do 2 eexists. split; [exact Hn|]. reflexivity.
Qed.

Lemma destroy_entity_reuse_fifo_witness :
  exists em',
    EntityManager.destroy_entity em_two 0 = Ok em' /\
    exists em'' em''',
      create_n (length (EntityManager.available_entities_ em_two)) em'
        = Ok (EntityManager.available_entities_ em_two, em'') /\
      EntityManager.create_entity em'' = Ok (0, em''').
Proof.
  assert (Hok : is_ok (EntityManager.destroy_entity em_two 0) = true) by (vm_compute; reflexivity).
  destruct (EntityManager.destroy_entity em_two 0) as [em'| |] eqn:Hd;
    [|discriminate Hok|discriminate Hok].
  exists em'. split; [reflexivity|]. exact (destroy_entity_reuse_fifo em_two 0 em' Hd).
Defined.

(** X3: after [set_signature(e, s)] returns, [get_signature(e)] returns [s] and every other entity's signature is unchanged. *)
Theorem set_get_signature em e s em' :
  EntityManager.set_signature em e s = Ok em' ->
  EntityManager.get_signature em' e = Ok s /\
  (forall x, x <> e -> EntityManager.get_signature em' x = EntityManager.get_signature em x).
Proof.
  intros Hs. apply em_set_signature_ok in Hs as [He ->].
  unfold EntityManager.get_signature, array_get. cbn [EntityManager.signatures_].
  split.
  - rewrite list_lookup_insert_eq by exact He. reflexivity.
  - intros x Hx. rewrite list_lookup_insert_ne by congruence. reflexivity.
Qed.

Lemma set_get_signature_witness :
  exists em',
    EntityManager.set_signature em_one 0 5%Z = Ok em' /\
    EntityManager.get_signature em' 0 = Ok 5%Z /\
    EntityManager.get_signature em' 1 = EntityManager.get_signature em_one 1.
Proof.
  assert (Hok : is_ok (EntityManager.set_signature em_one 0 5%Z) = true) by (vm_compute; reflexivity).
  destruct (EntityManager.set_signature em_one 0 5%Z) as [em'| |] eqn:Hs;
    [|discriminate Hok|discriminate Hok].
  exists em'. split; [reflexivity|].
  destruct (set_get_signature em_one 0 5%Z em' Hs) as [H1 H2].
  split; [exact H1|]. apply H2. discriminate.
Defined.

Lemma cm_add_component_no_error {V : Type} (cm : ComponentManager.t V) ty e (v : V) err :
  ComponentManager.add_component cm ty e v <> Error err.
Proof.
  unfold ComponentManager.add_component, ComponentManager.get_component_array,
    ComponentArray.insert_data, array_set, mbind, result_bind.
  destruct (ComponentManager.component_arrays_ cm !! ty); [|discriminate].
  case_decide; discriminate.
Qed.

(** X4: an entity id at or above [MAX_ENTITIES] indexes the signature array out of bounds: [get_signature], [destroy_entity], [add_component] and [remove_component] of the coordinator are undefined for it. *)
Theorem entity_out_of_range_undefined {V : Type} (c : Coordinator.t V) ty (e : Entity) (v : V) :
  length (EntityManager.signatures_ (Coordinator.entity_manager_ c)) = MAX_ENTITIES ->
  MAX_ENTITIES <= e ->
  EntityManager.get_signature (Coordinator.entity_manager_ c) e = Undefined /\
  Coordinator.destroy_entity c e = Undefined /\
  Coordinator.add_component c ty e v = Undefined /\
  Coordinator.remove_component c ty e = Undefined.
Proof.
  intros Hlen He.
  assert (Hget : EntityManager.get_signature (Coordinator.entity_manager_ c) e = Undefined).
  { unfold EntityManager.get_signature, array_get.
    rewrite lookup_ge_None_2 by lia. reflexivity. }
  split; [exact Hget|]. split; [|split].
  - unfold Coordinator.destroy_entity, EntityManager.destroy_entity, array_set, mbind, result_bind.
    rewrite decide_False by lia. reflexivity.
  - unfold Coordinator.add_component, mbind, result_bind.
    destruct (ComponentManager.add_component _ ty e v) eqn:E; try reflexivity.
    + rewrite Hget. reflexivity.
    + exfalso. exact (cm_add_component_no_error _ _ _ _ _ E).
  - apply coordinator_remove_component_undefined.
Qed.

Lemma entity_out_of_range_undefined_witness :
  EntityManager.get_signature (Coordinator.entity_manager_ pixel_one) 5000 = Undefined /\
  Coordinator.destroy_entity pixel_one 5000 = Undefined /\
  Coordinator.add_component pixel_one "Pixel"%string 5000 7 = Undefined /\
  Coordinator.remove_component pixel_one "Pixel"%string 5000 = Undefined.
Proof.
  apply entity_out_of_range_undefined.
  - cbn [Coordinator.entity_manager_ pixel_one EntityManager.signatures_].
    rewrite length_insert. apply length_replicate.
  - unfold MAX_ENTITIES. lia.
Defined.

(** ** Further properties of ComponentArray *)

(** X5: [insert_data] of an entity without data into a well-formed array that is not full succeeds, keeps the array well formed, grows [size_] by one, makes [get_data] return the inserted value, and leaves the slot and value of every other entity unchanged. *)
Theorem insert_data_fresh {V : Type} (ca : ComponentArray.t V) (e : Entity) (v : V) :
  array_wf ca ->
  ComponentArray.entity_to_index_map_ ca !! e = None ->
  ComponentArray.size_ ca < MAX_ENTITIES ->
  exists ca',
    ComponentArray.insert_data ca e v = Ok ca' /\
    array_wf ca' /\
    ComponentArray.size_ ca' = S (ComponentArray.size_ ca) /\
    ComponentArray.get_data ca' e = Ok (v, ca') /\
    (forall x ix, ComponentArray.entity_to_index_map_ ca !! x = Some ix ->
       ComponentArray.entity_to_index_map_ ca' !! x = Some ix /\
       ComponentArray.component_array_ ca' !! ix = ComponentArray.component_array_ ca !! ix).
Proof.
  intros Hwf Hnone Hsz.
  pose proof (wf_length _ Hwf) as Hlen.
  set (ca' := ComponentArray.mk
          (<[ComponentArray.size_ ca:=v]> (ComponentArray.component_array_ ca))
          (<[e:=ComponentArray.size_ ca]> (ComponentArray.entity_to_index_map_ ca))
          (<[ComponentArray.size_ ca:=e]> (ComponentArray.index_to_entity_map_ ca))
          (S (ComponentArray.size_ ca))).
  assert (Hins : ComponentArray.insert_data ca e v = Ok ca').
  { unfold ComponentArray.insert_data, array_set, mbind, result_bind.
    rewrite decide_True by lia. reflexivity. }
  exists ca'. split; [exact Hins|]. split; [exact (array_wf_insert ca ca' e v Hwf Hnone Hins)|].
  split; [reflexivity|]. split.
  - unfold ComponentArray.get_data, umap_index, array_get, mbind, result_bind. subst ca'.
    cbn [ComponentArray.entity_to_index_map_ ComponentArray.component_array_
         ComponentArray.index_to_entity_map_ ComponentArray.size_].
    rewrite lookup_insert_eq, list_lookup_insert_eq by lia. reflexivity.
  - intros x ix Hx. subst ca'.
    cbn [ComponentArray.entity_to_index_map_ ComponentArray.component_array_].
    assert (Hxe : x <> e) by congruence.
    assert (Hix : ix < ComponentArray.size_ ca).
    { apply (wf_dense _ Hwf). exists x. apply (wf_inverse _ Hwf). exact Hx. }
    rewrite lookup_insert_ne by congruence.
    rewrite list_lookup_insert_ne by lia. split; [exact Hx|reflexivity].
Qed.

Lemma insert_data_fresh_witness :
  exists ca',
    ComponentArray.insert_data pixel_array_one 1 9 = Ok ca' /\
    array_wf ca' /\ ComponentArray.size_ ca' = 2 /\
    ComponentArray.get_data ca' 1 = Ok (9, ca').
Proof.
  destruct (insert_data_fresh pixel_array_one 1 9 pixel_array_one_wf) as
    (ca' & H1 & H2 & H3 & H4 & _).
  - reflexivity.
  - apply Nat.ltb_lt. reflexivity.
  - exists ca'. auto.
Defined.

(** X6: [insert_data] into an array whose [size_] has reached [MAX_ENTITIES] writes past the end of [component_array_]: it is undefined, whatever the entity. *)
Theorem insert_data_full_undefined {V : Type} (ca : ComponentArray.t V) (e : Entity) (v : V) :
  length (ComponentArray.component_array_ ca) = MAX_ENTITIES ->
  ComponentArray.size_ ca = MAX_ENTITIES ->
  ComponentArray.insert_data ca e v = Undefined.
Proof.
  intros Hlen Hsz. unfold ComponentArray.insert_data, array_set, mbind, result_bind.
  rewrite decide_False by lia. reflexivity.
Qed.

Lemma insert_data_full_undefined_witness :
  ComponentArray.insert_data (ComponentArray.mk (replicate MAX_ENTITIES 0) ∅ ∅ MAX_ENTITIES) 7 1
  = Undefined.
Proof.
  apply insert_data_full_undefined; [apply length_replicate|reflexivity].
Defined.

(** X7: [remove_data] of an entity holding data in a well-formed array succeeds, keeps the array well formed, shrinks [size_] by one, erases the entity's map entry, and every other entity keeps a map entry under which [get_data] returns its old value. *)
Theorem remove_data_present {V : Type} (ca : ComponentArray.t V) (e : Entity) (i : nat) :
  array_wf ca ->
  ComponentArray.entity_to_index_map_ ca !! e = Some i ->
  exists ca',
    ComponentArray.remove_data ca e = Ok ca' /\
    array_wf ca' /\
    ComponentArray.size_ ca' = ComponentArray.size_ ca - 1 /\
    ComponentArray.entity_to_index_map_ ca' !! e = None /\
    (forall x ix, x <> e ->
       ComponentArray.entity_to_index_map_ ca !! x = Some ix ->
       exists jx y,
         ComponentArray.entity_to_index_map_ ca' !! x = Some jx /\
         ComponentArray.component_array_ ca !! ix = Some y /\
         ComponentArray.get_data ca' x = Ok (y, ca')).
Proof.
  intros Hwf He.
  destruct (remove_data_ok ca e i Hwf He) as (iL & eL & last & Hsz & _ & _ & Hrem).
  eexists. split; [exact Hrem|].
  destruct (remove_data_spec ca _ e i Hwf He Hrem) as (Hwf' & Hgone & _ & Hkeep).
  split; [exact Hwf'|]. split; [rewrite Hsz; cbn; lia|]. split; [exact Hgone|].
  intros x ix Hx Hix.
  destruct (Hkeep x ix Hx Hix) as (jx & Hjx & Hsame).
  destruct (get_data_present _ x jx Hwf' Hjx) as (y & Hy & Hget).
  exists jx, y. split; [exact Hjx|]. split; [congruence|exact Hget].
Qed.

(** X8: [remove_data] of an entity without data does not fail: [operator[]] gives it index 0, the last element is moved into slot 0, and afterwards both the entity that was at slot 0 and the last entity map to slot 0 and read the last element's value. *)
Theorem remove_data_absent_clobbers {V : Type} (ca : ComponentArray.t V)
    (e e0 eL : Entity) (vL : V) :
  array_wf ca ->
  ComponentArray.entity_to_index_map_ ca !! e = None ->
  ComponentArray.index_to_entity_map_ ca !! 0 = Some e0 ->
  ComponentArray.index_to_entity_map_ ca !! (ComponentArray.size_ ca - 1) = Some eL ->
  ComponentArray.component_array_ ca !! (ComponentArray.size_ ca - 1) = Some vL ->
  e0 <> eL ->
  exists ca',
    ComponentArray.remove_data ca e = Ok ca' /\
    ComponentArray.size_ ca' = ComponentArray.size_ ca - 1 /\
    ComponentArray.entity_to_index_map_ ca' !! e0 = Some 0 /\
    ComponentArray.entity_to_index_map_ ca' !! eL = Some 0 /\
    ComponentArray.get_data ca' e0 = Ok (vL, ca') /\
    ComponentArray.get_data ca' eL = Ok (vL, ca').
Proof.
  intros Hwf Hnone H0 HL HvL Hne.
  destruct ca as [arr e2i i2e sz].
  cbn [ComponentArray.entity_to_index_map_ ComponentArray.index_to_entity_map_
       ComponentArray.component_array_ ComponentArray.size_] in *.
  pose proof (wf_length _ Hwf) as Hlen. pose proof (wf_inverse _ Hwf) as Hinv.
  cbn [ComponentArray.entity_to_index_map_ ComponentArray.index_to_entity_map_
       ComponentArray.component_array_ ComponentArray.size_] in Hlen, Hinv.
  assert (He0 : e2i !! e0 = Some 0) by (apply Hinv; exact H0).
  assert (He0e : e0 <> e) by congruence.
  assert (HeLe : eL <> e) by (intros ->; apply Hinv in HL; congruence).
  assert (Hsz : sz - 1 < length arr).
  { apply lookup_lt_Some in HvL. exact HvL. }
  assert (H0len : 0 < length arr) by lia.
  destruct sz as [|iL].
  { cbn in HL. congruence. }
  replace (S iL - 1) with iL in * by lia.
  eexists. split.
  { unfold ComponentArray.remove_data, umap_index, array_get, array_set, mbind, result_bind.
    cbn [ComponentArray.entity_to_index_map_ ComponentArray.index_to_entity_map_
         ComponentArray.component_array_ ComponentArray.size_].
    rewrite Hnone, HvL, decide_True by exact H0len. rewrite HL. reflexivity. }
  cbn [ComponentArray.entity_to_index_map_ ComponentArray.size_].
  split; [lia|].
  rewrite !lookup_delete_ne by congruence.
  rewrite lookup_insert_ne by congruence. rewrite lookup_insert_ne by congruence.
  split; [exact He0|].
  rewrite lookup_insert_eq. split; [reflexivity|].
  unfold ComponentArray.get_data, umap_index, array_get, mbind, result_bind.
  cbn [ComponentArray.entity_to_index_map_ ComponentArray.component_array_].
  rewrite !lookup_delete_ne by congruence.
  rewrite lookup_insert_ne by congruence. rewrite lookup_insert_ne by congruence.
  rewrite He0, list_lookup_insert_eq by exact H0len.
  split; [reflexivity|].
  rewrite lookup_insert_eq, list_lookup_insert_eq by exact H0len. reflexivity.
Qed.

(** ** Further properties of ComponentManager and Coordinator *)

(** X9: registering a type name that is already registered leaves its type id and its array unchanged but still advances [next_component_type]. *)
Theorem register_component_again {V : Type} (cm : ComponentManager.t V) ty ct ca (dflt : V) :
  ComponentManager.component_types_ cm !! ty = Some ct ->
  ComponentManager.component_arrays_ cm !! ty = Some ca ->
  ComponentManager.component_types_ (ComponentManager.register_component cm ty dflt)
    = ComponentManager.component_types_ cm /\
  ComponentManager.component_arrays_ (ComponentManager.register_component cm ty dflt)
    = ComponentManager.component_arrays_ cm /\
  ComponentManager.next_component_type (ComponentManager.register_component cm ty dflt)
    = (ComponentManager.next_component_type cm + 1) mod 256.
Proof.
  intros Ht Ha. unfold ComponentManager.register_component, umap_insert.
  cbn [ComponentManager.component_types_ ComponentManager.component_arrays_
       ComponentManager.next_component_type].
  rewrite Ht, Ha. auto.
Qed.


Lemma register_components_other {V : Type} (cm : ComponentManager.t V) names (dflt : V) ty :
  ty ∉ names ->
  ComponentManager.component_types_ (register_components cm names dflt) !! ty
  = ComponentManager.component_types_ cm !! ty.
Proof.
  unfold register_components. revert cm.
  induction names as [|ty0 names IH]; intros cm Hty; [reflexivity|].
  cbn [fold_left]. rewrite IH by set_solver.
  unfold ComponentManager.register_component, umap_insert.
  cbn [ComponentManager.component_types_].
  destruct (ComponentManager.component_types_ cm !! ty0); [reflexivity|].
  apply lookup_insert_ne. set_solver.
Qed.

(** X10: registering distinct new type names one after another gives the [k]-th of them the id [next_component_type + k] modulo 256. *)
Theorem register_components_ids {V : Type} (cm : ComponentManager.t V) names (dflt : V) :
  NoDup names ->
  (forall ty, ty ∈ names -> ComponentManager.component_types_ cm !! ty = None) ->
  ComponentManager.next_component_type cm < 256 ->
  forall k ty, names !! k = Some ty ->
  ComponentManager.component_types_ (register_components cm names dflt) !! ty
  = Some ((ComponentManager.next_component_type cm + k) mod 256).
Proof.
  revert cm. induction names as [|ty0 names IH]; intros cm Hnd Hnone Hnext k ty Hk;
    [discriminate|].
  apply NoDup_cons in Hnd as [Hty0 Hnd].
  assert (H0 : ComponentManager.component_types_ cm !! ty0 = None) by (apply Hnone; left).
  unfold register_components. cbn [fold_left]. fold (register_components
    (ComponentManager.register_component cm ty0 dflt) names dflt).
  destruct k as [|k]; cbn [lookup list_lookup] in Hk.
  - injection Hk as <-. rewrite register_components_other by exact Hty0.
    unfold ComponentManager.register_component, umap_insert.
    cbn [ComponentManager.component_types_]. rewrite H0, lookup_insert_eq.
    rewrite Nat.add_0_r, Nat.mod_small by exact Hnext. reflexivity.
  - assert (Hnone1 : forall ty1, ty1 ∈ names -> ComponentManager.component_types_
                (ComponentManager.register_component cm ty0 dflt) !! ty1 = None).
    { intros ty1 Hty1. unfold ComponentManager.register_component, umap_insert.
      cbn [ComponentManager.component_types_]. rewrite H0.
      rewrite lookup_insert_ne by (intros ->; contradiction). apply Hnone. right. exact Hty1. }
    assert (Hnext1 : ComponentManager.next_component_type
                       (ComponentManager.register_component cm ty0 dflt) < 256).
    { cbn [ComponentManager.next_component_type ComponentManager.register_component].
      apply Nat.mod_upper_bound. lia. }
    rewrite (IH _ Hnd Hnone1 Hnext1 k ty Hk).
    cbn [ComponentManager.next_component_type ComponentManager.register_component].
    f_equal. rewrite Nat.Div0.add_mod_idemp_l. f_equal. lia.
Qed.

(** X11: for a type whose id is at least [MAX_COMPONENTS] (32), [add_component] never returns: [std::bitset::set] throws [std::out_of_range]; nor does [remove_component], which has no behaviour at all (see C3). *)
Theorem add_component_type_too_large {V : Type} (c : Coordinator.t V) ty ct e (v : V) :
  ComponentManager.component_types_ (Coordinator.component_manager_ c) !! ty = Some ct ->
  MAX_COMPONENTS <= ct ->
  (forall c', Coordinator.add_component c ty e v <> Ok c') /\
  (forall c', Coordinator.remove_component c ty e <> Ok c').
Proof.
  intros Hct Hge. split; intros c' H.
  - unfold Coordinator.add_component, mbind, result_bind in H. peel H.
    apply cm_add_component_ok in E as (ca & ca' & _ & _ & ->).
    unfold ComponentManager.get_component_type, umap_index in E1.
    cbn [ComponentManager.component_types_ ComponentManager.put_component_array] in E1.
    rewrite Hct in E1. injection E1 as <- _.
    apply bitset_set_ok in E2 as [Hlt _]. lia.
  - rewrite coordinator_remove_component_undefined in H. discriminate H.
Qed.

(** X12: for a type name without a registered array, [add_component], [remove_component] and [get_component] go through a null [shared_ptr]: they are undefined. *)
Theorem unregistered_type_undefined {V : Type} (c : Coordinator.t V) ty e (v : V) :
  ComponentManager.component_arrays_ (Coordinator.component_manager_ c) !! ty = None ->
  Coordinator.add_component c ty e v = Undefined /\
  Coordinator.remove_component c ty e = Undefined /\
  Coordinator.get_component c ty e = Undefined.
Proof.
  intros H.
  unfold Coordinator.add_component, Coordinator.remove_component, Coordinator.get_component,
    ComponentManager.add_component, ComponentManager.remove_component,
    ComponentManager.get_component, ComponentManager.get_component_array, mbind, result_bind.
  rewrite H. auto.
Qed.

(** X13: [get_component_type] of an unregistered type returns 0 and records 0 as its id, so registering the type afterwards keeps the id 0, whatever [next_component_type] is. *)
Theorem component_type_before_register {V : Type} (c : Coordinator.t V) ty (dflt : V) :
  ComponentManager.component_types_ (Coordinator.component_manager_ c) !! ty = None ->
  fst (Coordinator.get_component_type c ty) = 0 /\
  ComponentManager.component_types_
    (Coordinator.component_manager_
       (Coordinator.register_component (snd (Coordinator.get_component_type c ty)) ty dflt))
    !! ty = Some 0.
Proof.
  intros H. unfold Coordinator.get_component_type, ComponentManager.get_component_type, umap_index.
  rewrite H. cbn. unfold umap_insert. rewrite !lookup_insert_eq. split; reflexivity.
Qed.

(** X14: [SystemManager::entity_signature_changed] is idempotent: a second call with the same entity and signature changes nothing. *)
Theorem entity_signature_changed_twice sm e es :
  SystemManager.entity_signature_changed (SystemManager.entity_signature_changed sm e es) e es
  = SystemManager.entity_signature_changed sm e es.
Proof.
  destruct sm as [sigs systems]. unfold SystemManager.entity_signature_changed.
  cbn [SystemManager.signatures_ SystemManager.systems_]. f_equal.
  - apply map_eq. intros k. rewrite !lookup_union, !lookup_fmap, map_lookup_imap.
    destruct (sigs !! k), (systems !! k); reflexivity.
  - apply map_eq. intros k. rewrite !map_lookup_imap.
    destruct (systems !! k) as [ents|] eqn:Hk; [|reflexivity]. cbn [mbind option_bind].
    rewrite lookup_union, lookup_fmap, Hk.
    destruct (sigs !! k); cbn [union_with option_union_with fmap option_fmap default from_option id];
    (destruct (signature_matches es _); f_equal; apply set_eq; intros x; set_solver).
Qed.

(** X15: on a well-formed array below capacity, [insert_data] of an entity without data followed by [remove_data] of the same entity gives back both maps and [size_] exactly, and leaves the occupied slots as they were. *)
Theorem insert_remove_data_restores {V : Type} (ca : ComponentArray.t V) (e : Entity) (v : V) :
  array_wf ca ->
  ComponentArray.entity_to_index_map_ ca !! e = None ->
  ComponentArray.size_ ca < MAX_ENTITIES ->
  exists ca1 ca2,
    ComponentArray.insert_data ca e v = Ok ca1 /\
    ComponentArray.remove_data ca1 e = Ok ca2 /\
    ComponentArray.entity_to_index_map_ ca2 = ComponentArray.entity_to_index_map_ ca /\
    ComponentArray.index_to_entity_map_ ca2 = ComponentArray.index_to_entity_map_ ca /\
    ComponentArray.size_ ca2 = ComponentArray.size_ ca /\
    (forall i, i < ComponentArray.size_ ca ->
       ComponentArray.component_array_ ca2 !! i = ComponentArray.component_array_ ca !! i).
Proof.
  intros Hwf Hnone Hsz.
  pose proof (wf_length _ Hwf) as Hlen. pose proof (wf_dense _ Hwf) as Hdense.
  destruct ca as [arr e2i i2e sz].
  cbn [ComponentArray.entity_to_index_map_ ComponentArray.index_to_entity_map_
       ComponentArray.component_array_ ComponentArray.size_] in *.
  exists (ComponentArray.mk (<[sz:=v]> arr) (<[e:=sz]> e2i) (<[sz:=e]> i2e) (S sz)).
  exists (ComponentArray.mk (<[sz:=v]> (<[sz:=v]> arr))
            (delete e (<[e:=sz]> (<[e:=sz]> e2i)))
            (delete sz (<[sz:=e]> (<[sz:=e]> i2e))) sz).
  split.
  { unfold ComponentArray.insert_data, array_set, mbind, result_bind.
    cbn [ComponentArray.entity_to_index_map_ ComponentArray.index_to_entity_map_
         ComponentArray.component_array_ ComponentArray.size_].
    rewrite decide_True by lia. reflexivity. }
  split.
  { unfold ComponentArray.remove_data, umap_index, array_get, array_set, mbind, result_bind.
    cbn [ComponentArray.entity_to_index_map_ ComponentArray.index_to_entity_map_
         ComponentArray.component_array_ ComponentArray.size_].
    rewrite lookup_insert_eq, list_lookup_insert_eq by lia.
    rewrite decide_True by (rewrite length_insert; lia).
    rewrite lookup_insert_eq. reflexivity. }
  cbn [ComponentArray.entity_to_index_map_ ComponentArray.index_to_entity_map_
       ComponentArray.component_array_ ComponentArray.size_].
  split; [rewrite insert_insert_eq, delete_insert_eq; apply delete_id; exact Hnone|].
  split.
  { rewrite insert_insert_eq, delete_insert_eq. apply delete_id.
    destruct (i2e !! sz) eqn:Hi; [|reflexivity].
    assert (Hs : is_Some (i2e !! sz)) by (rewrite Hi; eexists; reflexivity).
    apply Hdense in Hs. lia. }
  split; [reflexivity|].
  intros i Hi. rewrite !list_lookup_insert_ne by lia. reflexivity.
Qed.


Lemma pixel_array_two_wf : array_wf pixel_array_two.
Proof.
  apply (array_wf_insert pixel_array_one pixel_array_two 1 9 pixel_array_one_wf);
    reflexivity.
Qed.

Lemma remove_data_absent_clobbers_witness :
  exists ca',
    ComponentArray.remove_data pixel_array_two 7 = Ok ca' /\
    ComponentArray.get_data ca' 0 = Ok (9, ca') /\
    ComponentArray.get_data ca' 1 = Ok (9, ca').
Proof.
  destruct (remove_data_absent_clobbers pixel_array_two 7 0 1 9 pixel_array_two_wf)
    as (ca' & H1 & _ & _ & _ & H5 & H6); try reflexivity.
  - discriminate.
  - exists ca'. auto.
Defined.

Lemma register_component_again_witness :
  ComponentManager.component_types_
    (ComponentManager.register_component (Coordinator.component_manager_ pixel_one) "Pixel"%string 0)
  = ComponentManager.component_types_ (Coordinator.component_manager_ pixel_one) /\
  ComponentManager.component_arrays_
    (ComponentManager.register_component (Coordinator.component_manager_ pixel_one) "Pixel"%string 0)
  = ComponentManager.component_arrays_ (Coordinator.component_manager_ pixel_one) /\
  ComponentManager.next_component_type
    (ComponentManager.register_component (Coordinator.component_manager_ pixel_one) "Pixel"%string 0)
  = (ComponentManager.next_component_type (Coordinator.component_manager_ pixel_one) + 1) mod 256.
Proof.
  apply (register_component_again _ _ 0 pixel_array_one); reflexivity.
Defined.

Lemma register_components_ids_witness :
  ComponentManager.component_types_
    (register_components ComponentManager.init
       ["Gravity"; "RigidBody"; "Transform"; "Pixel"]%string 0) !! "Pixel"%string
  = Some ((ComponentManager.next_component_type (@ComponentManager.init nat) + 3) mod 256).
Proof.
  apply register_components_ids.
  - apply (bool_decide_unpack (NoDup ["Gravity"; "RigidBody"; "Transform"; "Pixel"]%string)).
    vm_compute. exact I.
  - intros ty _. apply lookup_empty.
  - cbn. lia.
  - reflexivity.
Defined.

Lemma add_component_type_too_large_witness :
  (forall c', Coordinator.add_component
     (Coordinator.mk (register_components ComponentManager.init
        (map (fun n => String (Ascii.ascii_of_nat n) EmptyString) (seq 0 33)) 0)
        EntityManager.init SystemManager.init) " "%string 0 1 <> Ok c') /\
  (forall c', Coordinator.remove_component
     (Coordinator.mk (register_components ComponentManager.init
        (map (fun n => String (Ascii.ascii_of_nat n) EmptyString) (seq 0 33)) 0)
        EntityManager.init SystemManager.init) " "%string 0 <> Ok c').
Proof.
  apply (add_component_type_too_large _ _ 32).
  - vm_compute. reflexivity.
  - unfold MAX_COMPONENTS. lia.
Defined.

Lemma unregistered_type_undefined_witness :
  Coordinator.add_component pixel_one "Gravity"%string 0 1 = Undefined /\
  Coordinator.remove_component pixel_one "Gravity"%string 0 = Undefined /\
  Coordinator.get_component pixel_one "Gravity"%string 0 = Undefined.
Proof. apply unregistered_type_undefined. reflexivity. Defined.

Lemma component_type_before_register_witness :
  fst (Coordinator.get_component_type pixel_setup "Gravity"%string) = 0 /\
  ComponentManager.component_types_
    (Coordinator.component_manager_
       (Coordinator.register_component
          (snd (Coordinator.get_component_type pixel_setup "Gravity"%string)) "Gravity"%string 0))
    !! "Gravity"%string = Some 0.
Proof. apply component_type_before_register. reflexivity. Defined.

Lemma insert_remove_data_restores_witness :
  exists ca1 ca2,
    ComponentArray.insert_data pixel_array_one 1 9 = Ok ca1 /\
    ComponentArray.remove_data ca1 1 = Ok ca2 /\
    ComponentArray.entity_to_index_map_ ca2 = ComponentArray.entity_to_index_map_ pixel_array_one /\
    ComponentArray.index_to_entity_map_ ca2 = ComponentArray.index_to_entity_map_ pixel_array_one /\
    ComponentArray.size_ ca2 = ComponentArray.size_ pixel_array_one /\
    (forall i, i < ComponentArray.size_ pixel_array_one ->
       ComponentArray.component_array_ ca2 !! i = ComponentArray.component_array_ pixel_array_one !! i).
Proof.
  apply (insert_remove_data_restores pixel_array_one 1 9 pixel_array_one_wf).
  - reflexivity.
  - apply Nat.ltb_lt. reflexivity.
Defined.

(** Removing entity 0 from the two-entity array moves entity 1 and its
    value 9 from the last slot into slot 0. *)
Lemma remove_data_present_witness :
  exists ca',
    ComponentArray.remove_data pixel_array_two 0 = Ok ca' /\
    array_wf ca' /\
    ComponentArray.size_ ca' = 1 /\
    ComponentArray.entity_to_index_map_ ca' !! 0 = None /\
    ComponentArray.entity_to_index_map_ ca' !! 1 = Some 0 /\
    ComponentArray.get_data ca' 1 = Ok (9, ca').
Proof.
  destruct (remove_data_present pixel_array_two 0 0 pixel_array_two_wf eq_refl)
    as (ca' & Hrem & Hwf' & Hsz & Hgone & Hkeep).
  destruct (Hkeep 1 1 ltac:(discriminate) eq_refl) as (jx & y & Hjx & Hy & Hget).
  assert (E : ComponentArray.remove_data pixel_array_two 0 =
              Ok (ComponentArray.mk
                    (<[0:=9]> (<[1 := 9]> (<[0 := 5]> (replicate MAX_ENTITIES 0))))
                    (delete 0 (<[1:=0]> (<[1 := 1]> (<[0 := 0]> ∅))))
                    (delete 1 (<[0:=1]> (<[1 := 1]> (<[0 := 0]> ∅)))) 1))
    by reflexivity.
  rewrite E in Hrem. injection Hrem as <-.
  assert (Hy9 : ComponentArray.component_array_ pixel_array_two !! 1 = Some 9) by reflexivity.
  rewrite Hy9 in Hy. injection Hy as <-.
  eexists. split; [reflexivity|]. split; [exact Hwf'|]. split; [exact Hsz|].
  split; [exact Hgone|]. split; [reflexivity|]. exact Hget.
Defined.

(** ** The program [main] *)

Lemma coordinator_add_ok {V : Type} (c : Coordinator.t V) ty ca ct e s (v : V) :
  ComponentManager.component_arrays_ (Coordinator.component_manager_ c) !! ty = Some ca ->
  ComponentArray.size_ ca < length (ComponentArray.component_array_ ca) ->
  ComponentManager.component_types_ (Coordinator.component_manager_ c) !! ty = Some ct ->
  ct < MAX_COMPONENTS ->
  EntityManager.signatures_ (Coordinator.entity_manager_ c) !! e = Some s ->
  Coordinator.add_component c ty e v =
  Ok (Coordinator.mk
        (ComponentManager.put_component_array (Coordinator.component_manager_ c) ty
           (ComponentArray.mk
              (<[ComponentArray.size_ ca:=v]> (ComponentArray.component_array_ ca))
              (<[e:=ComponentArray.size_ ca]> (ComponentArray.entity_to_index_map_ ca))
              (<[ComponentArray.size_ ca:=e]> (ComponentArray.index_to_entity_map_ ca))
              (S (ComponentArray.size_ ca))))
        (EntityManager.mk (EntityManager.available_entities_ (Coordinator.entity_manager_ c))
           (<[e:=Z.lor s (Z.shiftl 1 (Z.of_nat ct))]>
              (EntityManager.signatures_ (Coordinator.entity_manager_ c)))
           (EntityManager.living_entity_count_ (Coordinator.entity_manager_ c)))
        (SystemManager.entity_signature_changed (Coordinator.system_manager_ c) e
           (Z.lor s (Z.shiftl 1 (Z.of_nat ct))))).
Proof.
  intros Hca Hsz Hct Hlt Hs.
  unfold Coordinator.add_component, ComponentManager.add_component,
    ComponentManager.get_component_array, ComponentArray.insert_data,
    EntityManager.get_signature, EntityManager.set_signature, array_get, array_set,
    mbind, result_bind.
  rewrite Hca, decide_True by exact Hsz. rewrite Hs.
  unfold ComponentManager.get_component_type, umap_index.
  cbn [ComponentManager.component_types_ ComponentManager.put_component_array].
  rewrite Hct. unfold bitset_set. rewrite decide_True by exact Hlt.
  rewrite decide_True by (apply lookup_lt_Some in Hs; exact Hs).
  reflexivity.
Qed.


Lemma esc_lookup (sm : SystemManager.t) e s ty sg ents :
  SystemManager.signatures_ sm !! ty = Some sg ->
  SystemManager.systems_ sm !! ty = Some ents ->
  SystemManager.signatures_ (SystemManager.entity_signature_changed sm e s) !! ty = Some sg /\
  SystemManager.systems_ (SystemManager.entity_signature_changed sm e s) !! ty =
    Some (if signature_matches s sg then {[e]} ∪ ents else ents ∖ {[e]}).
Proof.
  intros Hsg Hents. unfold SystemManager.entity_signature_changed. cbn.
  split.
  - rewrite lookup_union, Hsg, lookup_fmap, Hents. reflexivity.
  - rewrite map_lookup_imap, Hents. cbn. rewrite Hsg. reflexivity.
Qed.

Lemma loop_array_inv_other {V : Type} (c c' : Coordinator.t V) name ca' name' val' k' :
  ComponentManager.component_arrays_ (Coordinator.component_manager_ c') =
    <[name:=ca']> (ComponentManager.component_arrays_ (Coordinator.component_manager_ c)) ->
  name' <> name ->
  loop_array_inv c name' val' k' -> loop_array_inv c' name' val' k'.
Proof.
  intros Harr Hne (ca & Hca & Hrest). exists ca. split; [|exact Hrest].
  rewrite Harr, lookup_insert_ne by congruence. exact Hca.
Qed.

Lemma add_step {V : Type} (c : Coordinator.t V) name val k ct s :
  loop_array_inv c name val k -> k < MAX_ENTITIES ->
  ComponentManager.component_types_ (Coordinator.component_manager_ c) !! name = Some ct ->
  ct < MAX_COMPONENTS ->
  EntityManager.signatures_ (Coordinator.entity_manager_ c) !! k = Some s ->
  exists c', Coordinator.add_component c name k (val k) = Ok c' /\
    loop_array_inv c' name val (S k) /\
    (forall name' val' k', name' <> name ->
       loop_array_inv c name' val' k' -> loop_array_inv c' name' val' k') /\
    ComponentManager.component_types_ (Coordinator.component_manager_ c') =
      ComponentManager.component_types_ (Coordinator.component_manager_ c) /\
    EntityManager.available_entities_ (Coordinator.entity_manager_ c') =
      EntityManager.available_entities_ (Coordinator.entity_manager_ c) /\
    EntityManager.signatures_ (Coordinator.entity_manager_ c') =
      <[k:=Z.lor s (Z.shiftl 1 (Z.of_nat ct))]> (EntityManager.signatures_ (Coordinator.entity_manager_ c)) /\
    Coordinator.system_manager_ c' =
      SystemManager.entity_signature_changed (Coordinator.system_manager_ c) k
        (Z.lor s (Z.shiftl 1 (Z.of_nat ct))).
Proof.
  intros (ca & Hca & Hwf & Hsz & Hin & Hout) Hk Hct Hctlt Hs. subst k.
  assert (Hlt : ComponentArray.size_ ca < length (ComponentArray.component_array_ ca))
    by (rewrite (wf_length _ Hwf); lia).
  eexists. split;
    [exact (coordinator_add_ok c name ca ct (ComponentArray.size_ ca) s
              (val (ComponentArray.size_ ca)) Hca Hlt Hct Hctlt Hs)|].
  cbn [Coordinator.component_manager_ Coordinator.entity_manager_ Coordinator.system_manager_
       ComponentManager.component_types_ ComponentManager.component_arrays_
       ComponentManager.put_component_array EntityManager.available_entities_
       EntityManager.signatures_].
  split; [|split; [|repeat split]].
  - eexists. split; [apply lookup_insert_eq|].
    cbn [ComponentArray.size_ ComponentArray.entity_to_index_map_ ComponentArray.component_array_].
    split; [|split; [reflexivity|split]].
    + apply (array_wf_insert ca _ (ComponentArray.size_ ca) (val (ComponentArray.size_ ca))
               Hwf (Hout _ (le_n _))).
      unfold ComponentArray.insert_data, array_set, mbind, result_bind.
      rewrite decide_True by exact Hlt. reflexivity.
    + intros x Hx. rewrite lookup_insert.
      destruct (decide (ComponentArray.size_ ca = x)) as [<-|Hkx].
      * split; [reflexivity|]. apply list_lookup_insert_eq. exact Hlt.
      * rewrite list_lookup_insert_ne by exact Hkx. apply Hin. lia.
    + intros x Hx. rewrite lookup_insert_ne by lia. apply Hout. lia.
  - intros name' val' k' Hne. apply loop_array_inv_other with (name := name) (ca' := ComponentArray.mk
      (<[ComponentArray.size_ ca:=val (ComponentArray.size_ ca)]> (ComponentArray.component_array_ ca))
      (<[ComponentArray.size_ ca:=ComponentArray.size_ ca]> (ComponentArray.entity_to_index_map_ ca))
      (<[ComponentArray.size_ ca:=ComponentArray.size_ ca]> (ComponentArray.index_to_entity_map_ ca))
      (S (ComponentArray.size_ ca))); [reflexivity|exact Hne].
Qed.

Lemma main_iteration_step {V : Type} (vals : nat -> V * V * V * V) k (c : Coordinator.t V) :
  main_loop_inv vals k c -> k < MAX_ENTITIES ->
  exists c', main_iteration c (gravity_of vals k) (rigid_body_of vals k)
               (transform_of vals k) (pixel_of vals k) = Ok (k, c') /\
             main_loop_inv vals (S k) c'.
Proof.
  intros (HtG & HtR & HtT & HtP & HaG & HaR & HaT & HaP & Hav & Hlen & Hsig &
          HsP & HsR & (entsP & HeP & HinP) & (entsR & HeR & HinR)) Hk.
  set (c1 := Coordinator.mk (Coordinator.component_manager_ c)
               (EntityManager.mk (seq (S k) (MAX_ENTITIES - S k))
                  (EntityManager.signatures_ (Coordinator.entity_manager_ c))
                  ((EntityManager.living_entity_count_ (Coordinator.entity_manager_ c) + 1)
                     mod 2 ^ 32))
               (Coordinator.system_manager_ c)).
  change (Coordinator.component_manager_ c) with (Coordinator.component_manager_ c1)
    in HtG, HtR, HtT, HtP.
  assert (nRG : "RigidBody"%string <> "Gravity"%string) by discriminate.
  assert (nTG : "Transform"%string <> "Gravity"%string) by discriminate.
  assert (nPG : "Pixel"%string <> "Gravity"%string) by discriminate.
  assert (nTR : "Transform"%string <> "RigidBody"%string) by discriminate.
  assert (nPR : "Pixel"%string <> "RigidBody"%string) by discriminate.
  assert (nPT : "Pixel"%string <> "Transform"%string) by discriminate.
  assert (nGR : "Gravity"%string <> "RigidBody"%string) by discriminate.
  assert (nGT : "Gravity"%string <> "Transform"%string) by discriminate.
  assert (nGP : "Gravity"%string <> "Pixel"%string) by discriminate.
  assert (nRT : "RigidBody"%string <> "Transform"%string) by discriminate.
  assert (nRP : "RigidBody"%string <> "Pixel"%string) by discriminate.
  assert (nTP : "Transform"%string <> "Pixel"%string) by discriminate.
  assert (Hcreate : Coordinator.create_entity c = Ok (k, c1)).
  { unfold Coordinator.create_entity, EntityManager.create_entity, mbind, result_bind.
    rewrite Hav. replace (MAX_ENTITIES - k) with (S (MAX_ENTITIES - S k)) by lia.
    reflexivity. }
  assert (Hs0 : EntityManager.signatures_ (Coordinator.entity_manager_ c1) !! k = Some 0%Z).
  { cbn. rewrite (Hsig k Hk). rewrite decide_False by lia. reflexivity. }
  destruct (add_step c1 "Gravity" (gravity_of vals) k 0 0%Z HaG Hk HtG ltac:(cbv; lia) Hs0)
    as (c2 & Hadd2 & HaG2 & Hoth2 & Ht2 & Hav2 & Hsig2 & Hsm2).
  assert (Hs1 : EntityManager.signatures_ (Coordinator.entity_manager_ c2) !! k = Some 1%Z).
  { rewrite Hsig2. apply list_lookup_insert_eq. apply (lookup_lt_Some _ _ _ Hs0). }
  destruct (add_step c2 "RigidBody" (rigid_body_of vals) k 1 1%Z
              (Hoth2 _ _ _ nRG HaR) Hk ltac:(rewrite Ht2; exact HtR) ltac:(cbv; lia) Hs1)
    as (c3 & Hadd3 & HaR3 & Hoth3 & Ht3 & Hav3 & Hsig3 & Hsm3).
  assert (Hs2 : EntityManager.signatures_ (Coordinator.entity_manager_ c3) !! k = Some 3%Z).
  { rewrite Hsig3. apply list_lookup_insert_eq. apply (lookup_lt_Some _ _ _ Hs1). }
  destruct (add_step c3 "Transform" (transform_of vals) k 2 3%Z
              (Hoth3 _ _ _ nTR (Hoth2 _ _ _ nTG HaT))
              Hk ltac:(rewrite Ht3, Ht2; exact HtT) ltac:(cbv; lia) Hs2)
    as (c4 & Hadd4 & HaT4 & Hoth4 & Ht4 & Hav4 & Hsig4 & Hsm4).
  assert (Hs3 : EntityManager.signatures_ (Coordinator.entity_manager_ c4) !! k = Some 7%Z).
  { rewrite Hsig4. apply list_lookup_insert_eq. apply (lookup_lt_Some _ _ _ Hs2). }
  destruct (add_step c4 "Pixel" (pixel_of vals) k 3 7%Z
              (Hoth4 _ _ _ nPT (Hoth3 _ _ _ nPR (Hoth2 _ _ _ nPG HaP)))
              Hk ltac:(rewrite Ht4, Ht3, Ht2; exact HtP) ltac:(cbv; lia) Hs3)
    as (c5 & Hadd5 & HaP5 & Hoth5 & Ht5 & Hav5 & Hsig5 & Hsm5).
  exists c5. split.
  { unfold main_iteration, mbind, result_bind.
    rewrite Hcreate, Hadd2, Hadd3, Hadd4, Hadd5. reflexivity. }
  (* the system manager after the four calls *)
  change (Z.lor 0 (Z.shiftl 1 (Z.of_nat 0))) with 1%Z in Hsig2, Hsm2.
  change (Z.lor 1 (Z.shiftl 1 (Z.of_nat 1))) with 3%Z in Hsig3, Hsm3.
  change (Z.lor 3 (Z.shiftl 1 (Z.of_nat 2))) with 7%Z in Hsig4, Hsm4.
  change (Z.lor 7 (Z.shiftl 1 (Z.of_nat 3))) with 15%Z in Hsig5, Hsm5.
  assert (HsP1 : SystemManager.signatures_ (Coordinator.system_manager_ c1) !! "PhysicsSystem"%string
                 = Some 7%Z) by exact HsP.
  assert (HsR1 : SystemManager.signatures_ (Coordinator.system_manager_ c1) !! "RenderSystem"%string
                 = Some 12%Z) by exact HsR.
  destruct (esc_lookup _ k 1%Z _ _ _ HsP1 HeP) as [HsP2 HeP2].
  destruct (esc_lookup _ k 1%Z _ _ _ HsR1 HeR) as [HsR2 HeR2].
  rewrite <- Hsm2 in HsP2, HeP2, HsR2, HeR2.
  destruct (esc_lookup _ k 3%Z _ _ _ HsP2 HeP2) as [HsP3 HeP3].
  destruct (esc_lookup _ k 3%Z _ _ _ HsR2 HeR2) as [HsR3 HeR3].
  rewrite <- Hsm3 in HsP3, HeP3, HsR3, HeR3.
  destruct (esc_lookup _ k 7%Z _ _ _ HsP3 HeP3) as [HsP4 HeP4].
  destruct (esc_lookup _ k 7%Z _ _ _ HsR3 HeR3) as [HsR4 HeR4].
  rewrite <- Hsm4 in HsP4, HeP4, HsR4, HeR4.
  destruct (esc_lookup _ k 15%Z _ _ _ HsP4 HeP4) as [HsP5 HeP5].
  destruct (esc_lookup _ k 15%Z _ _ _ HsR4 HeR4) as [HsR5 HeR5].
  rewrite <- Hsm5 in HsP5, HeP5, HsR5, HeR5.
  change (signature_matches 1 7) with false in HeP5.
  change (signature_matches 3 7) with false in HeP5.
  change (signature_matches 7 7) with true in HeP5.
  change (signature_matches 15 7) with true in HeP5.
  change (signature_matches 1 12) with false in HeR5.
  change (signature_matches 3 12) with false in HeR5.
  change (signature_matches 7 12) with false in HeR5.
  change (signature_matches 15 12) with true in HeR5.
  cbv beta iota in HeP5, HeR5.
  unfold main_loop_inv; cbv zeta. rewrite Ht5, Ht4, Ht3, Ht2.
  split; [exact HtG|]. split; [exact HtR|]. split; [exact HtT|]. split; [exact HtP|].
  split; [exact (Hoth5 _ _ _ nGP (Hoth4 _ _ _ nGT (Hoth3 _ _ _ nGR HaG2)))|].
  split; [exact (Hoth5 _ _ _ nRP (Hoth4 _ _ _ nRT HaR3))|].
  split; [exact (Hoth5 _ _ _ nTP HaT4)|].
  split; [exact HaP5|].
  split; [rewrite Hav5, Hav4, Hav3, Hav2; reflexivity|].
  rewrite Hsig5, Hsig4, Hsig3, Hsig2.
  split; [rewrite !length_insert; exact Hlen|].
  split.
  { intros x Hx. destruct (decide (k = x)) as [<-|Hkx].
    - rewrite list_lookup_insert_eq
        by (rewrite !length_insert; cbn; rewrite Hlen; exact Hk).
      rewrite decide_True by lia. reflexivity.
    - rewrite !list_lookup_insert_ne by exact Hkx.
      cbn [Coordinator.entity_manager_ c1 EntityManager.signatures_].
      rewrite (Hsig x Hx).
      destruct (decide (x < k)), (decide (x < S k)); reflexivity || lia. }
  split; [exact HsP5|]. split; [exact HsR5|].
  split.
  { eexists. split; [exact HeP5|]. intros x.
    rewrite !elem_of_union, !elem_of_difference, !elem_of_singleton, HinP. lia. }
  { eexists. split; [exact HeR5|]. intros x.
    rewrite !elem_of_union, !elem_of_difference, !elem_of_singleton, HinR. lia. }
Qed.

Lemma main_loop_run {V : Type} (vals : nat -> V * V * V * V) n k (c : Coordinator.t V) :
  main_loop_inv vals k c -> k + n = MAX_ENTITIES ->
  exists c', main_loop vals k n c = Ok (seq k n, c') /\ main_loop_inv vals MAX_ENTITIES c'.
Proof.
  revert k c. induction n as [|n IH]; intros k c Hinv Hkn.
  - exists c. rewrite Nat.add_0_r in Hkn. subst k. split; [reflexivity|exact Hinv].
  - destruct (main_iteration_step vals k c Hinv ltac:(lia)) as (c1 & Hit & Hinv1).
    destruct (IH (S k) c1 Hinv1 ltac:(lia)) as (c' & Hrun & Hinv').
    exists c'. split; [|exact Hinv'].
    cbn [main_loop seq].
    unfold gravity_of, rigid_body_of, transform_of, pixel_of in Hit.
    destruct (vals k) as [[[g r] t] p].
    unfold mbind, result_bind in *. rewrite Hit, Hrun. reflexivity.
Qed.

Lemma main_setup_ok {V : Type} (dG dR dT dP : V) :
  main_setup dG dR dT dP =
  Ok (Coordinator.mk
        (ComponentManager.mk
           (<["Pixel"%string:=3]> (<["Transform"%string:=2]>
              (<["RigidBody"%string:=1]> (<["Gravity"%string:=0]> ∅))))
           (<["Pixel"%string:=ComponentArray.empty dP]>
              (<["Transform"%string:=ComponentArray.empty dT]>
                 (<["RigidBody"%string:=ComponentArray.empty dR]>
                    (<["Gravity"%string:=ComponentArray.empty dG]> ∅))))
           4)
        EntityManager.init
        (SystemManager.mk
           (<["RenderSystem"%string:=12%Z]> (<["PhysicsSystem"%string:=7%Z]> ∅))
           (<["RenderSystem"%string:=∅]> (<["PhysicsSystem"%string:=∅]> ∅)))).
Proof. reflexivity. Qed.

Lemma main_setup_inv {V : Type} (dG dR dT dP : V) vals c0 :
  main_setup dG dR dT dP = Ok c0 -> main_loop_inv vals 0 c0.
Proof.
  rewrite main_setup_ok. intros [= <-].
  unfold main_loop_inv; cbv zeta.
  cbn [Coordinator.component_manager_ Coordinator.entity_manager_ Coordinator.system_manager_
       ComponentManager.component_types_ SystemManager.signatures_ SystemManager.systems_].
  assert (Harr : forall name (val : nat -> V) d,
    ComponentManager.component_arrays_ (Coordinator.component_manager_ (Coordinator.mk
        (ComponentManager.mk
           (<["Pixel"%string:=3]> (<["Transform"%string:=2]>
              (<["RigidBody"%string:=1]> (<["Gravity"%string:=0]> ∅))))
           (<["Pixel"%string:=ComponentArray.empty dP]>
              (<["Transform"%string:=ComponentArray.empty dT]>
                 (<["RigidBody"%string:=ComponentArray.empty dR]>
                    (<["Gravity"%string:=ComponentArray.empty dG]> ∅))))
           4)
        EntityManager.init
        (SystemManager.mk
           (<["RenderSystem"%string:=12%Z]> (<["PhysicsSystem"%string:=7%Z]> ∅))
           (<["RenderSystem"%string:=∅]> (<["PhysicsSystem"%string:=∅]> ∅))))) !! name =
      Some (ComponentArray.empty d) ->
    loop_array_inv (Coordinator.mk
        (ComponentManager.mk
           (<["Pixel"%string:=3]> (<["Transform"%string:=2]>
              (<["RigidBody"%string:=1]> (<["Gravity"%string:=0]> ∅))))
           (<["Pixel"%string:=ComponentArray.empty dP]>
              (<["Transform"%string:=ComponentArray.empty dT]>
                 (<["RigidBody"%string:=ComponentArray.empty dR]>
                    (<["Gravity"%string:=ComponentArray.empty dG]> ∅))))
           4)
        EntityManager.init
        (SystemManager.mk
           (<["RenderSystem"%string:=12%Z]> (<["PhysicsSystem"%string:=7%Z]> ∅))
           (<["RenderSystem"%string:=∅]> (<["PhysicsSystem"%string:=∅]> ∅)))) name val 0).
  { intros name val d H. exists (ComponentArray.empty d).
    split; [exact H|]. split; [apply array_wf_empty|].
    split; [reflexivity|]. split; [intros x Hx; lia|].
    intros x _. apply lookup_empty. }
  split; [reflexivity|]. split; [reflexivity|]. split; [reflexivity|]. split; [reflexivity|].
  split; [apply (Harr _ _ dG); reflexivity|].
  split; [apply (Harr _ _ dR); reflexivity|].
  split; [apply (Harr _ _ dT); reflexivity|].
  split; [apply (Harr _ _ dP); reflexivity|].
  split; [reflexivity|].
  split; [apply length_replicate|].
  split; [intros x Hx; apply lookup_replicate_2; exact Hx|].
  split; [reflexivity|]. split; [reflexivity|].
  split; (eexists; split; [reflexivity|]); intros x; split;
    [intros Hx; apply elem_of_empty in Hx; contradiction|lia|
     intros Hx; apply elem_of_empty in Hx; contradiction|lia].
Qed.

(** X16: [main] up to the render loop, whatever component values are drawn: the setup and all [MAX_ENTITIES] iterations return, the entities created are 0 .. [MAX_ENTITIES] - 1 in order, no free id is left, every entity has signature 15 (bits 0-3), both systems hold exactly all entities, and [get_component] returns for every entity the four values it was given. *)
Theorem main_setup_and_loop {V : Type} (dG dR dT dP : V) (vals : nat -> V * V * V * V) :
  exists c0 c,
    main_setup dG dR dT dP = Ok c0 /\
    main_loop vals 0 MAX_ENTITIES c0 = Ok (seq 0 MAX_ENTITIES, c) /\
    EntityManager.available_entities_ (Coordinator.entity_manager_ c) = [] /\
    (forall e, e < MAX_ENTITIES -> Coordinator.signature_of c e = 15%Z) /\
    (exists ents, Coordinator.system_entities c "PhysicsSystem" = Some ents /\
                  forall e, e ∈ ents <-> e < MAX_ENTITIES) /\
    (exists ents, Coordinator.system_entities c "RenderSystem" = Some ents /\
                  forall e, e ∈ ents <-> e < MAX_ENTITIES) /\
    (forall e, e < MAX_ENTITIES ->
       Coordinator.get_component c "Gravity" e = Ok (gravity_of vals e, c) /\
       Coordinator.get_component c "RigidBody" e = Ok (rigid_body_of vals e, c) /\
       Coordinator.get_component c "Transform" e = Ok (transform_of vals e, c) /\
       Coordinator.get_component c "Pixel" e = Ok (pixel_of vals e, c)).
Proof.
  destruct (main_setup dG dR dT dP) as [c0| |] eqn:Hsetup;
    [|rewrite main_setup_ok in Hsetup; discriminate Hsetup
     |rewrite main_setup_ok in Hsetup; discriminate Hsetup].
  pose proof (main_setup_inv dG dR dT dP vals c0 Hsetup) as Hinv0.
  destruct (main_loop_run vals MAX_ENTITIES 0 c0 Hinv0 eq_refl) as (c & Hrun & Hinv).
  exists c0, c. split; [reflexivity|]. split; [exact Hrun|].
  destruct Hinv as (_ & _ & _ & _ & HaG & HaR & HaT & HaP & Hav & _ & Hsig & _ & _ & HP & HR).
  split; [rewrite Hav, Nat.sub_diag; reflexivity|].
  split; [intros e He; unfold Coordinator.signature_of; rewrite (Hsig e He);
          rewrite decide_True by exact He; reflexivity|].
  split; [exact HP|]. split; [exact HR|].
  assert (Hget : forall name val, loop_array_inv c name val MAX_ENTITIES ->
            forall e, e < MAX_ENTITIES -> Coordinator.get_component c name e = Ok (val e, c)).
  { intros name val (ca & Hca & Hwf & _ & Hin & _) e He.
    destruct (Hin e He) as [He2i Harr].
    destruct (coordinator_get_present c name ca e e Hca Hwf He2i) as (y & Hy & Hg).
    rewrite Hg. rewrite Harr in Hy. injection Hy as <-. reflexivity. }
  intros e He. split; [|split; [|split]]; apply Hget; assumption.
Qed.
